(** * parrotty: the user-space TTY event pipeline and its two kernel probes

    A shallow embedding of [parrotty.py]: the ctypes [Event] record, the
    formatter [printevent], the clock calibrator built by
    [calibratetimefactory], the callback [handleevent], the signal handler
    [handleinterrupt], the poll loop, and the size/type computations of the
    two BPF probes held in [bpf_text].

    Python integers are unbounded, so they are [Z]; the fixed-width fields
    of the ctypes structure are [Z] too, with a range predicate where a
    property depends on the width.  Bytes are [list byte]; text written to
    standard output is a [string]. *)

From Stdlib Require Import ZArith List Bool Lia Sorting.Sorted.
From Stdlib Require Import Strings.String Strings.Ascii Strings.Byte.
From Stdlib Require Import Numbers.DecimalString.
Import ListNotations.

Open Scope Z_scope.

(** ** The parts of the Python runtime the script relies on *)

Module Py.

(** [str(n)] for an [int]: decimal digits, a leading minus sign when
    negative. *)
Definition str_int (n : Z) : string :=
  NilZero.string_of_int (Z.to_int n).

Definition NUL : byte := x00.

(** The getter ctypes installs for a [c_char * N] structure field: the
    bytes of the array up to, and not including, the first NUL (all [N]
    bytes when there is none). *)
Fixpoint char_array_get (raw : list byte) : list byte :=
  match raw with
  | [] => []
  | c :: rest => if Byte.eqb c NUL then [] else c :: char_array_get rest
  end.

(** [b[:n]] on a bytes object, for the non-negative [n] of a [c_uint]. *)
Definition slice_to (b : list byte) (n : Z) : list byte :=
  firstn (Z.to_nat n) b.

(** [l[i]] on a list: negative indices count from the end, anything
    outside raises [IndexError] (here [None]). *)
Definition index {A} (l : list A) (i : Z) : option A :=
  let n := Z.of_nat (List.length l) in
  if 0 <=? i then nth_error l (Z.to_nat i)
  else if - n <=? i then nth_error l (Z.to_nat (n + i))
  else None.

Definition squote : ascii := "'"%char.
Definition dquote : ascii := "034"%char.
Definition backslash : ascii := "\"%char.
Definition newline : ascii := "010"%char.

Definition hexdigit (n : N) : ascii :=
  match n with
  | 0%N => "0" | 1%N => "1" | 2%N => "2" | 3%N => "3"
  | 4%N => "4" | 5%N => "5" | 6%N => "6" | 7%N => "7"
  | 8%N => "8" | 9%N => "9" | 10%N => "a" | 11%N => "b"
  | 12%N => "c" | 13%N => "d" | 14%N => "e" | _ => "f"
  end%char.

Definition str2 (a b : ascii) : string := String a (String b EmptyString).

(** One byte of [repr(bytes)], for the chosen quote character. *)
Definition repr_byte (quote : ascii) (c : byte) : string :=
  let a := ascii_of_byte c in
  let n := Byte.to_N c in
  if (Ascii.eqb a quote || Ascii.eqb a backslash)%bool then str2 backslash a
  else if (n =? 9)%N then str2 backslash "t"
  else if (n =? 10)%N then str2 backslash "n"
  else if (n =? 13)%N then str2 backslash "r"
  else if ((n <? 32) || (127 <=? n))%N%bool then
    String backslash
      (String "x" (str2 (hexdigit (n / 16)) (hexdigit (n mod 16))))
  else String a EmptyString.

Definition has_byte (a : ascii) (b : list byte) : bool :=
  existsb (fun c => Ascii.eqb (ascii_of_byte c) a) b.

(** The quote [repr] picks: double quotes only when the bytes hold a
    single quote and no double quote. *)
Definition repr_quote (b : list byte) : ascii :=
  if (has_byte squote b && negb (has_byte dquote b))%bool
  then dquote else squote.

Fixpoint repr_body (quote : ascii) (b : list byte) : string :=
  match b with
  | [] => EmptyString
  | c :: rest => (repr_byte quote c ++ repr_body quote rest)%string
  end.

(** [repr(b)] for a bytes object; [str(b)], which an f-string uses, is
    the same text. *)
Definition repr_bytes (b : list byte) : string :=
  let q := repr_quote b in
  String "b" (String q (repr_body q b ++ String q EmptyString))%string.

(** Conversion of an integer to a double (round to nearest, ties to
    even, 53 significant bits).  The result is again an integer, so it
    is kept in [Z].  Nanosecond timestamps are far below the magnitude at
    which the conversion overflows, which is left out. *)
Definition round_double (z : Z) : Z :=
  let a := Z.abs z in
  let e := Z.log2 a - 52 in
  if e <=? 0 then z
  else
    let q := a / 2 ^ e in
    let r := a mod 2 ^ e in
    let h := 2 ^ (e - 1) in
    let q' := if r <? h then q
              else if h <? r then q + 1
              else if Z.even q then q else q + 1 in
    Z.sgn z * (q' * 2 ^ e).

(** [i + f] for an [int] [i] and a [float] [f] of integral value: [i] is
    converted first, then the sum is rounded. *)
Definition int_add_float (i f : Z) : Z :=
  round_double (round_double i + f).

(** [print(s)]: the text and a newline are appended to the stream. *)
Definition print (s : string) (out : string) : string :=
  (out ++ s ++ String newline EmptyString)%string.

(** The physical lines of a stream: the newline-terminated pieces, and a
    last unterminated piece when there is one. *)
Fixpoint lines_from (cur : string) (s : string) : list string :=
  match s with
  | EmptyString =>
      match cur with EmptyString => [] | _ => [cur] end
  | String c rest =>
      if Ascii.eqb c newline then cur :: lines_from EmptyString rest
      else lines_from (cur ++ String c EmptyString)%string rest
  end.

Definition lines (s : string) : list string := lines_from EmptyString s.

Fixpoint no_newline (s : string) : bool :=
  match s with
  | EmptyString => true
  | String c rest => (negb (Ascii.eqb c newline) && no_newline rest)%bool
  end.

(** [needle in hay] for strings. *)
Fixpoint contains (needle hay : string) : bool :=
  (String.prefix needle hay ||
   match hay with
   | EmptyString => false
   | String _ rest => contains needle rest
   end)%bool.

End Py.

(** ** The event record *)

(** [EVENT_TYPES] *)
Definition EVENT_TYPES : list string := ["OUTPUT"; "INPUT"]%string.

(** [class Event(Structure)]: the raw contents of the structure.  [comm]
    and [buf] are the arrays as they lie in memory; reading the field from
    Python goes through [Py.char_array_get]. *)
Record Event := {
  rawtime : Z;        (* c_ulonglong *)
  cgid : Z;           (* c_ulonglong *)
  inode : Z;          (* c_ulonglong *)
  pidtgid : Z;        (* c_ulonglong *)
  nsid : Z;           (* c_ulonglong *)
  comm : list byte;   (* c_char * 16 *)
  buf : list byte;    (* c_char * 4096 *)
  len : Z;            (* c_uint *)
  etype : Z           (* c_int *)
}.

(** The ranges of [c_ulonglong] and of a 32-bit unsigned integer. *)
Definition u64 (z : Z) : Prop := 0 <= z < 2 ^ 64.
Definition u32 (z : Z) : Prop := 0 <= z < 2 ^ 32.

(** ** The formatter *)

(** [event.pidtgid >> 32] and [event.pidtgid & 0xFFFFFFFF] *)
Definition pid_of (combined : Z) : Z := Z.shiftr combined 32.
Definition tid_of (combined : Z) : Z := Z.land combined 4294967295.

(** The second line [printevent] prints: [repr(event.buf[:event.len])]. *)
Definition payload_repr (event : Event) : string :=
  Py.repr_bytes (Py.slice_to (Py.char_array_get (buf event)) (len event)).

(** The first line, for a direction name already looked up. *)
Definition header (direction : string) (event : Event) (currenttime : Z)
  : string :=
  ("<" ++ direction ++ " "
   ++ "pid=" ++ Py.str_int (pid_of (pidtgid event)) ++ " "
   ++ "tid=" ++ Py.str_int (tid_of (pidtgid event)) ++ " "
   ++ "time=" ++ Py.str_int currenttime ++ " "
   ++ "rawtime=" ++ Py.str_int (rawtime event) ++ " "
   ++ "cgid=" ++ Py.str_int (cgid event) ++ " "
   ++ "inode=" ++ Py.str_int (inode event) ++ " "
   ++ "pidtgid=" ++ Py.str_int (pidtgid event) ++ " "
   ++ "nsid=" ++ Py.str_int (nsid event) ++ " "
   ++ "comm=" ++ Py.repr_bytes (Py.char_array_get (comm event)) ++ " "
   ++ "len=" ++ Py.str_int (len event)
   ++ ">")%string.

(** [printevent(event, currenttime)] on the stream [out]: [None] when the
    lookup in [EVENT_TYPES] raises [IndexError], in which case nothing has
    been printed.  The final [sys.stdout.flush()] does not change what has
    been written. *)
Definition printevent (event : Event) (currenttime : Z) (out : string)
  : option string :=
  match Py.index EVENT_TYPES (etype event) with
  | None => None
  | Some direction =>
      Some (Py.print (payload_repr event)
              (Py.print (header direction event currenttime) out))
  end.

(** ** The clock calibrator *)

(** The two clocks as [calculateclockoffset] sees them: the readings of
    [time.time_ns()] and [time.monotonic_ns()] made by its [n]-th call
    (the call made by the factory is number 0). *)
Record Clocks := {
  time_ns : nat -> Z;
  monotonic_ns : nat -> Z
}.

(** [calculateclockoffset()], at its [n]-th call. *)
Definition calculateclockoffset (clk : Clocks) (n : nat) : Z * Z :=
  let wallclocktime := time_ns clk n in
  let monotonictime := monotonic_ns clk n in
  (wallclocktime - monotonictime, wallclocktime).

(** [UPDATE_INTERVAL = 6e10] and [DRIFT_THRESHOLD = 1e6]: two floats, both
    of integral value. *)
Definition UPDATE_INTERVAL : Z := 60000000000.
Definition DRIFT_THRESHOLD : Z := 1000000.

(** The variables closed over by [calibratetime].  [calibrations] is not in
    the source: it counts the calls of [calculateclockoffset] made so far,
    and selects the clock readings of the next one. *)
Record Calibrator := {
  clockoffset : Z;
  lastupdate : Z;
  calibrations : nat
}.

(** [calibratetimefactory()]: the state the returned closure starts from. *)
Definition calibratetimefactory (clk : Clocks) : Calibrator :=
  let '(offset, updated) := calculateclockoffset clk 0 in
  {| clockoffset := offset; lastupdate := updated; calibrations := 1 |}.

(** The condition of the [if] in [calibratetime].  The sum
    [lastupdate + UPDATE_INTERVAL] is a float; both comparisons are
    between an [int] and a float and are exact. *)
Definition recalibrates (c : Calibrator) (rawtime wallclocktime : Z) : bool :=
  let calibratedtime := rawtime + clockoffset c in
  let drift := Z.abs (wallclocktime - calibratedtime) in
  ((Py.int_add_float (lastupdate c) UPDATE_INTERVAL <? wallclocktime)
   || (DRIFT_THRESHOLD <? drift))%bool.

(** [calibratetime(rawtime, wallclocktime)]: the value returned and the
    closed-over variables afterwards. *)
Definition calibratetime (clk : Clocks) (c : Calibrator)
    (rawtime wallclocktime : Z) : Z * Calibrator :=
  let calibratedtime := rawtime + clockoffset c in
  if recalibrates c rawtime wallclocktime then
    let '(offset, updated) := calculateclockoffset clk (calibrations c) in
    (calibratedtime,
     {| clockoffset := offset; lastupdate := updated;
        calibrations := S (calibrations c) |})
  else (calibratedtime, c).

(** The calibrator applied to a sequence of events, each given as its
    [rawtime] and the wall-clock time read when it was handled: the
    calibrated times in order, and the final state. *)
Fixpoint calibrate_all (clk : Clocks) (c : Calibrator) (evs : list (Z * Z))
  : list Z * Calibrator :=
  match evs with
  | [] => ([], c)
  | (rawtime, wallclocktime) :: rest =>
      let '(t, c') := calibratetime clk c rawtime wallclocktime in
      let '(ts, c'') := calibrate_all clk c' rest in
      (t :: ts, c'')
  end.

(** ** The pipeline: callback, signal handler and poll loop *)

(** The state of the main module: the global [running], the calibrator
    closure, and everything written to standard output so far. *)
Record Pipeline := {
  running : bool;
  calibrator : Calibrator;
  stdout : string
}.

(** [handleinterrupt(sig, frame)], installed for SIGINT and SIGTERM. *)
Definition handleinterrupt (p : Pipeline) : Pipeline :=
  {| running := false; calibrator := calibrator p; stdout := stdout p |}.

(** [handleevent(cpu, data, size)] run to completion with no signal
    delivered meanwhile; [wallclocktime] is what [time.time_ns()] returns
    in its body.  With [handleinterrupt] installed for SIGINT no
    [KeyboardInterrupt] is raised, so the [except] clause is never entered;
    an [IndexError] raised by [printevent] is not caught by it and leaves
    the callback after the calibrator has been updated. *)
Definition handleevent (clk : Clocks) (wallclocktime : Z) (data : Event)
    (p : Pipeline) : Pipeline :=
  if running p then
    let event := data in
    let '(currenttime, c) :=
      calibratetime clk (calibrator p) (rawtime event) wallclocktime in
    match printevent event currenttime (stdout p) with
    | Some out => {| running := running p; calibrator := c; stdout := out |}
    | None => {| running := running p; calibrator := c; stdout := stdout p |}
    end
  else p.

(** Where control is.  Signal handlers run between statements, so the body
    of [handleevent] is split at each statement. *)
Inductive Control :=
| LoopTest                                  (* [while running:] *)
| Polling                                   (* in [b.ring_buffer_poll()] *)
| AtRunningTest (data : Event)              (* [if running:] *)
| AtClockRead (data : Event)                (* [time.time_ns()] *)
| AtDecode (wallclocktime : Z) (data : Event)       (* [cast(...).contents] *)
| AtCalibrate (wallclocktime : Z) (event : Event)   (* [calibratetime(...)] *)
| AtPrint (event : Event) (currenttime : Z)          (* [printevent(...)] *)
| Exited.

Record Process := {
  vars : Pipeline;
  control : Control
}.

(** What the environment contributes to one step. *)
Inductive Input :=
| Signal                 (* SIGINT or SIGTERM is delivered *)
| Deliver (data : Event) (* the ring buffer hands a record to the callback *)
| PollReturns            (* [ring_buffer_poll] returns to the loop *)
| ClockIs (now : Z)      (* the value [time.time_ns()] returns *)
| Go.                    (* the statement at hand runs *)

(** One step of the process; [None] when the input cannot happen at the
    current point of control. *)
Definition step (clk : Clocks) (i : Input) (s : Process) : option Process :=
  let p := vars s in
  match i, control s with
  | Signal, k => Some {| vars := handleinterrupt p; control := k |}
  | Go, LoopTest =>
      Some {| vars := p; control := if running p then Polling else Exited |}
  | Deliver data, Polling =>
      Some {| vars := p; control := AtRunningTest data |}
  | PollReturns, Polling => Some {| vars := p; control := LoopTest |}
  | Go, AtRunningTest data =>
      Some {| vars := p;
              control := if running p then AtClockRead data else Polling |}
  | ClockIs now, AtClockRead data =>
      Some {| vars := p; control := AtDecode now data |}
  | Go, AtDecode now data =>
      Some {| vars := p; control := AtCalibrate now data |}
  | Go, AtCalibrate now event =>
      let '(currenttime, c) :=
        calibratetime clk (calibrator p) (rawtime event) now in
      Some {| vars := {| running := running p; calibrator := c;
                         stdout := stdout p |};
              control := AtPrint event currenttime |}
  | Go, AtPrint event currenttime =>
      match printevent event currenttime (stdout p) with
      | Some out =>
          Some {| vars := {| running := running p;
                             calibrator := calibrator p; stdout := out |};
                  control := Polling |}
      | None => Some {| vars := p; control := Polling |}
      end
  | _, _ => None
  end.

Fixpoint run (clk : Clocks) (inputs : list Input) (s : Process)
  : option Process :=
  match inputs with
  | [] => Some s
  | i :: rest =>
      match step clk i s with
      | Some s' => run clk rest s'
      | None => None
      end
  end.

(** The process as the main module starts it: [running = True], a fresh
    calibrator, nothing printed, about to test the loop condition. *)
Definition start (clk : Clocks) : Process :=
  {| vars := {| running := true; calibrator := calibratetimefactory clk;
                stdout := EmptyString |};
     control := LoopTest |}.

(** A record that is decoded and still inside the callback of the pipeline
    [p]: control is about to calibrate it, in which case the time it will
    be printed with is its [rawtime] plus the offset in force, or it has
    been calibrated already and control is about to print it with the time
    [t]. *)
Definition decoded_in_flight (p : Pipeline) (k : Control) (event : Event)
    (t : Z) : Prop :=
  (exists wallclocktime : Z,
      k = AtCalibrate wallclocktime event
      /\ t = rawtime event + clockoffset (calibrator p))
  \/ k = AtPrint event t.

(** What can be said of a process that received a termination request
    while [event], already decoded, was in flight at the point of control
    [k0] in the pipeline [p0]: [running] is cleared; the record is either
    still on its way, with nothing printed yet, or it has been printed
    with the time [t] and standard output is [out]; no other record gets
    past the [running] test. *)
Definition draining (p0 : Pipeline) (k0 : Control) (event : Event) (t : Z)
    (out : string) (s : Process) : Prop :=
  running (vars s) = false
  /\ match control s with
     | AtCalibrate w e =>
         k0 = AtCalibrate w e /\ e = event
         /\ stdout (vars s) = stdout p0
         /\ calibrator (vars s) = calibrator p0
     | AtPrint e t' =>
         e = event /\ t' = t /\ stdout (vars s) = stdout p0
     | AtClockRead _ | AtDecode _ _ => False
     | LoopTest | Polling | AtRunningTest _ | Exited =>
         stdout (vars s) = out
     end.

(** ** The kernel probes *)

(** C conversions to [unsigned long], [u32] and [int]. *)
Definition to_ulong (z : Z) : Z := z mod 2 ^ 64.
Definition to_u32 (z : Z) : Z := z mod 2 ^ 32.
Definition to_int (z : Z) : Z := (z + 2 ^ 31) mod 2 ^ 32 - 2 ^ 31.

(** [enum event_type_t] *)
Definition OUTPUT : Z := 0.
Definition INPUT : Z := 1.

(** Modelled from the spec: [PAGE_SIZE] comes from [<asm/page.h>], which is
    not part of the repository.  The payload capacity of 4095 usable bytes
    plus a terminator, and the 4096-byte [buf] of the ctypes [Event], fix
    it at 4096; it is an [unsigned long]. *)
Definition PAGE_SIZE : Z := 4096.

(** Memory as the probe helpers see it: an address is readable or not. *)
Definition Memory := Z -> option byte.

(** [bpf_probe_read_user] / [bpf_probe_read_kernel] of [n] bytes at
    [addr]: the bytes, or [None] when the helper reports a fault. *)
Fixpoint probe_read (mem : Memory) (addr : Z) (n : nat) : option (list byte) :=
  match n with
  | O => Some []
  | S k =>
      match mem addr, probe_read mem (addr + 1) k with
      | Some b, Some bs => Some (b :: bs)
      | _, _ => None
      end
  end.

(** The bytes [src] copied over the start of [dst]. *)
Definition copy_over (dst src : list byte) : list byte :=
  src ++ skipn (List.length src) dst.

(** [a[i] = v]; nothing is stored outside the array. *)
Fixpoint store (a : list byte) (i : nat) (v : byte) : list byte :=
  match a, i with
  | [], _ => []
  | _ :: rest, O => v :: rest
  | c :: rest, S j => c :: store rest j v
  end.

(** What is common to both probes once the payload is in place: the
    identifiers of the current task, as the helpers return them. *)
Record Task := {
  task_nsid : Z;
  task_cgid : Z;
  task_pidtgid : Z;
  task_comm : list byte
}.

Section Probes.

(** Constants of the kernel headers. *)
Variables ITER_IOVEC ITER_UBUF WRITE : Z.

(** What [kprobe__tty_write] reads from its arguments and helpers.  The
    pointer and length are the values left in the local [buf] (here
    [user_buf]) and [count] by the reads through [from] (still [NULL]
    and 0 when a read failed);
    [tw_slot] is the slot [ringbuf_reserve] returns, with whatever it
    held before. *)
Record tty_write_args := {
  tw_ktime : Z;
  tw_iter_type : Z;
  tw_data_source : Z;
  tw_iov_base : Z;
  tw_iov_len : Z;
  tw_ubuf : Z;
  tw_count : Z;
  tw_slot : option Event;
  tw_user : Memory;
  tw_ino : Z;
  tw_task : Task
}.

(** [kprobe__tty_write]: the event submitted to the ring buffer, if
    any. *)
Definition kprobe__tty_write (a : tty_write_args) : option Event :=
  let rawtime := tw_ktime a in
  if (negb (tw_iter_type a =? ITER_IOVEC)
      && negb (tw_iter_type a =? ITER_UBUF))%bool then None
  else if negb (tw_data_source a =? WRITE) then None
  else
    let '(user_buf, count) :=
      if tw_iter_type a =? ITER_IOVEC then (tw_iov_base a, tw_iov_len a)
      else if tw_iter_type a =? ITER_UBUF then (tw_ubuf a, tw_count a)
      else (0, 0) in
    if ((user_buf =? 0) || (count =? 0))%bool then None
    else
      match tw_slot a with
      | None => None
      | Some data =>
          let size :=
            to_int (if to_ulong count <? PAGE_SIZE - 1
                    then to_ulong count else PAGE_SIZE - 1) in
          match probe_read (tw_user a) user_buf (Z.to_nat (to_u32 size)) with
          | None => None
          | Some bytes =>
              let copied := copy_over (buf data) bytes in
              let terminated :=
                if to_ulong size <? PAGE_SIZE
                then store copied (Z.to_nat size) Py.NUL else copied in
              Some {| rawtime := rawtime;
                      cgid := task_cgid (tw_task a);
                      inode := tw_ino a;
                      pidtgid := task_pidtgid (tw_task a);
                      nsid := task_nsid (tw_task a);
                      comm := task_comm (tw_task a);
                      buf := terminated;
                      len := to_u32 size;
                      etype := INPUT |}
          end
      end.

(** What [kprobe__n_tty_receive_buf_common] reads.  [rb_ino] is the
    inode number found through [tty->driver_data], or [None] when that
    chain gives no inode. *)
Record receive_buf_args := {
  rb_ktime : Z;
  rb_cp : Z;
  rb_count : Z;            (* int *)
  rb_slot : option Event;
  rb_kernel : Memory;
  rb_ino : option Z;
  rb_task : Task
}.

(** [kprobe__n_tty_receive_buf_common] *)
Definition kprobe__n_tty_receive_buf_common (a : receive_buf_args)
  : option Event :=
  let rawtime := rb_ktime a in
  if rb_cp a =? 0 then None
  else
    match rb_slot a with
    | None => None
    | Some data =>
        let size :=
          to_int (if to_ulong (rb_count a) <? PAGE_SIZE - 1
                  then to_ulong (rb_count a) else PAGE_SIZE - 1) in
        match probe_read (rb_kernel a) (rb_cp a) (Z.to_nat (to_u32 size)) with
        | None => None
        | Some bytes =>
            let copied := copy_over (buf data) bytes in
            let terminated := store copied (Z.to_nat size) Py.NUL in
            Some {| rawtime := rawtime;
                    cgid := task_cgid (rb_task a);
                    inode := match rb_ino a with Some i => i | None => 0 end;
                    pidtgid := task_pidtgid (rb_task a);
                    nsid := task_nsid (rb_task a);
                    comm := task_comm (rb_task a);
                    buf := terminated;
                    len := to_u32 size;
                    etype := OUTPUT |}
        end
    end.

End Probes.

(** ** Sample inputs *)

(** A byte array of [n] bytes holding [content] followed by NULs. *)
Definition padded (n : nat) (content : list byte) : list byte :=
  content ++ repeat Py.NUL (n - List.length content).

Definition bytes_of (s : string) : list byte := list_byte_of_string s.

(** The record of the end-to-end scenario: direction OUTPUT, combined
    identifier [(4242 << 32) | 7], command [bash], payload [ls] and a
    newline, three bytes long. *)
Definition bash_ls_event : Event :=
  {| rawtime := 5000; cgid := 11; inode := 34; pidtgid := Z.lor (Z.shiftl 4242 32) 7;
     nsid := 4026531836;
     comm := padded 16 (bytes_of "bash");
     buf := padded 4096 (bytes_of "ls" ++ [x0a]);
     len := 3; etype := 0 |}.

(** A record whose three payload bytes are [a], NUL, [b]. *)
Definition nul_event : Event :=
  {| rawtime := 5000; cgid := 11; inode := 34; pidtgid := Z.lor (Z.shiftl 4242 32) 7;
     nsid := 4026531836;
     comm := padded 16 (bytes_of "cat");
     buf := padded 4096 [x61; x00; x62];
     len := 3; etype := 1 |}.

(** Clocks that read the same values at every calibration: wall clock
    1700000000000000255, monotonic clock 1000. *)
Definition steady_clocks : Clocks :=
  {| time_ns := fun _ => 1700000000000000255; monotonic_ns := fun _ => 1000 |}.

(** A running pipeline that has printed nothing yet. *)
Definition fresh_pipeline (clk : Clocks) : Pipeline :=
  {| running := true; calibrator := calibratetimefactory clk;
     stdout := EmptyString |}.

(** The calibrator the factory builds on [steady_clocks]: offset
    1700000000000000255 - 1000, last updated at 1700000000000000255. *)
Definition steady_calibrator : Calibrator := calibratetimefactory steady_clocks.

(** Clocks whose [n]-th calibration reads a wall clock of
    [1700000000000000000 + 1000 n] and a monotonic clock of [1000 n + 7 n]:
    the offset changes at every calibration. *)
Definition drifting_clocks : Clocks :=
  {| time_ns := fun n => 1700000000000000000 + 1000 * Z.of_nat n;
     monotonic_ns := fun n => 1007 * Z.of_nat n |}.

(** User memory holding [ls] and a newline at address 4096, nothing
    elsewhere. *)
Definition ls_memory : Memory :=
  fun addr =>
    if addr =? 4096 then Some x6c
    else if addr =? 4097 then Some x73
    else if addr =? 4098 then Some x0a
    else None.

Definition bash_task : Task :=
  {| task_nsid := 4026531836; task_cgid := 11;
     task_pidtgid := Z.lor (Z.shiftl 4242 32) 7;
     task_comm := padded 16 (bytes_of "bash") |}.

(** A reserved slot still holding bytes of an earlier record. *)
Definition stale_slot : Event :=
  {| rawtime := 1; cgid := 2; inode := 3; pidtgid := 4; nsid := 5;
     comm := repeat xff 16; buf := repeat xff 4096; len := 4000;
     etype := 7 |}.

(** A write of three bytes through a user buffer, for kernel constants
    [ITER_IOVEC = 0], [ITER_UBUF = 5] and [WRITE = 1]. *)
Definition ls_write : tty_write_args :=
  {| tw_ktime := 5000; tw_iter_type := 5; tw_data_source := 1;
     tw_iov_base := 0; tw_iov_len := 0; tw_ubuf := 4096; tw_count := 3;
     tw_slot := Some stale_slot; tw_user := ls_memory; tw_ino := 34;
     tw_task := bash_task |}.

(** ** Further notions used to state properties of the pipeline *)

(** A character a terminal shows as itself: space to tilde. *)
Definition printable_char (a : ascii) : bool :=
  let n := N_of_ascii a in ((32 <=? n) && (n <=? 126))%N%bool.

(** Text made of printable characters and newlines only. *)
Fixpoint plain_text (s : string) : bool :=
  match s with
  | EmptyString => true
  | String c rest =>
      ((printable_char c || Ascii.eqb c Py.newline) && plain_text rest)%bool
  end.

(** One call of [ring_buffer_poll] handing a batch of records to the
    callback one after the other, no signal arriving meanwhile; each record
    comes with the wall-clock time read while it is handled. *)
Fixpoint handle_all (clk : Clocks) (batch : list (Z * Event)) (p : Pipeline)
  : Pipeline :=
  match batch with
  | [] => p
  | (wallclocktime, data) :: rest =>
      handle_all clk rest (handleevent clk wallclocktime data p)
  end.

(** The two lines [printevent] writes for a record with a known
    direction. *)
Definition event_text (direction : string) (event : Event) (currenttime : Z)
  : string :=
  (header direction event currenttime ++ String Py.newline EmptyString
   ++ payload_repr event ++ String Py.newline EmptyString)%string.

Definition is_signal (i : Input) : bool :=
  match i with Signal => true | _ => false end.

(** The inputs other than signals, in order. *)
Definition without_signals (inputs : list Input) : list Input :=
  filter (fun i => negb (is_signal i)) inputs.

(** The points of control at which no record is inside the callback past
    its test of [running]. *)
Definition idle (k : Control) : bool :=
  match k with
  | LoopTest | Polling | AtRunningTest _ | Exited => true
  | _ => false
  end.

(** What [printevent] writes for a record, on its own: its two lines, or
    nothing when the direction lookup raises. *)
Definition record_text (event : Event) (currenttime : Z) : string :=
  match printevent event currenttime EmptyString with
  | Some text => text
  | None => EmptyString
  end.

(** The texts of a sequence of records, each with its time, one after the
    other. *)
Fixpoint records_text (records : list Event) (times : list Z) : string :=
  match records, times with
  | event :: records', t :: times' =>
      (record_text event t ++ records_text records' times')%string
  | _, _ => EmptyString
  end.

(** A pipeline with its [running] flag replaced. *)
Definition with_running (b : bool) (p : Pipeline) : Pipeline :=
  {| running := b; calibrator := calibrator p; stdout := stdout p |}.

(** The number of statements of the callback still to run once the test
    of [running] has been passed. *)
Definition callback_left (k : Control) : nat :=
  match k with
  | AtClockRead _ => 4
  | AtDecode _ _ => 3
  | AtCalibrate _ _ => 2
  | AtPrint _ _ => 1
  | _ => 0
  end.

(** The same three bytes arriving through the receive path. *)
Definition ls_receive : receive_buf_args :=
  {| rb_ktime := 5000; rb_cp := 4096; rb_count := 3;
     rb_slot := Some stale_slot; rb_kernel := ls_memory;
     rb_ino := Some 34; rb_task := bash_task |}.

(** Reading a bytes literal back, the inverse of [Py.repr_bytes]; it is not
    in the script and serves only to show that the rendering loses
    nothing. *)
Definition hexvalue (a : ascii) : N :=
  let n := N_of_ascii a in
  if (n <? 58)%N then (n - 48)%N else (n - 87)%N.

Definition byte_of_N (n : N) : byte := byte_of_ascii (ascii_of_N n).

Fixpoint unrepr_body (quote : ascii) (s : string) : option (list byte) :=
  match s with
  | EmptyString => None
  | String a rest =>
      if Ascii.eqb a quote then
        match rest with EmptyString => Some [] | _ => None end
      else if Ascii.eqb a Py.backslash then
        match rest with
        | EmptyString => None
        | String b rest' =>
            if Ascii.eqb b "x" then
              match rest' with
              | String h1 (String h2 rest'') =>
                  option_map
                    (cons (byte_of_N (16 * hexvalue h1 + hexvalue h2)))
                    (unrepr_body quote rest'')
              | _ => None
              end
            else
              let c := if Ascii.eqb b "t" then x09
                       else if Ascii.eqb b "n" then x0a
                       else if Ascii.eqb b "r" then x0d
                       else byte_of_ascii b in
              option_map (cons c) (unrepr_body quote rest')
        end
      else option_map (cons (byte_of_ascii a)) (unrepr_body quote rest)
  end.

Definition unrepr_bytes (s : string) : option (list byte) :=
  match s with
  | String "b" (String q body) => unrepr_body q body
  | _ => None
  end.

(** The lines a record adds to the log: its header and its payload line,
    or none when the direction lookup raises. *)
Definition record_lines (event : Event) (currenttime : Z) : list string :=
  match Py.index EVENT_TYPES (etype event) with
  | Some direction =>
      [header direction event currenttime; payload_repr event]
  | None => []
  end.

Fixpoint records_lines (records : list Event) (times : list Z)
  : list string :=
  match records, times with
  | event :: records', t :: times' =>
      record_lines event t ++ records_lines records' times'
  | _, _ => []
  end.

(** * Properties *)

(** ** Text: newlines, lines and substrings *)

Section Text.

Open Scope string_scope.

Lemma no_newline_app (s t : string) :
  Py.no_newline (s ++ t) = (Py.no_newline s && Py.no_newline t)%bool.
Proof.
  induction s as [|c s IH]; simpl; [reflexivity|].
  rewrite IH. now rewrite andb_assoc.
Qed.

Lemma string_app_assoc (s t u : string) : (s ++ t) ++ u = s ++ (t ++ u).
Proof. induction s as [|c s IH]; simpl; [reflexivity|now rewrite IH]. Qed.

Lemma string_app_nil_r (s : string) : s ++ EmptyString = s.
Proof. induction s as [|c s IH]; simpl; [reflexivity|now rewrite IH]. Qed.

(** A piece without newline, followed by a newline, is one line. *)
Lemma lines_from_line (s cur rest : string) :
  Py.no_newline s = true ->
  Py.lines_from cur (s ++ String Py.newline rest)
  = (cur ++ s) :: Py.lines_from EmptyString rest.
Proof.
  revert cur. induction s as [|c s IH]; intros cur H; simpl in *.
  - now rewrite string_app_nil_r.
  - apply andb_prop in H as [Hc Hs].
    apply negb_true_iff in Hc. rewrite Hc.
    rewrite IH by assumption.
    now rewrite string_app_assoc.
Qed.

Lemma lines_two (h p : string) :
  Py.no_newline h = true -> Py.no_newline p = true ->
  Py.lines (h ++ String Py.newline (p ++ String Py.newline EmptyString))
  = [h; p].
Proof.
  intros Hh Hp. unfold Py.lines.
  rewrite lines_from_line by assumption.
  rewrite lines_from_line by assumption.
  reflexivity.
Qed.

Lemma prefix_app (s t : string) : String.prefix s (s ++ t) = true.
Proof.
  induction s as [|c s IH]; simpl.
  - destruct t; reflexivity.
  - destruct (ascii_dec c c) as [_|n]; [exact IH|now elim n].
Qed.

(** [Py.contains] finds every occurrence. *)
Lemma contains_complete (needle pre post : string) :
  Py.contains needle (pre ++ needle ++ post) = true.
Proof.
  induction pre as [|c pre IH].
  - change (EmptyString ++ needle ++ post) with (needle ++ post).
    assert (H : forall hay, String.prefix needle hay = true ->
                            Py.contains needle hay = true).
    { intros hay Hp. destruct hay; cbn [Py.contains]; rewrite Hp; reflexivity. }
    apply H, prefix_app.
  - cbn [append Py.contains]. rewrite IH. apply orb_true_r.
Qed.

Lemma uint_no_newline (d : Decimal.uint) :
  Py.no_newline (NilEmpty.string_of_uint d) = true.
Proof. induction d; simpl; auto. Qed.

Lemma str_int_no_newline (n : Z) : Py.no_newline (Py.str_int n) = true.
Proof.
  unfold Py.str_int, NilZero.string_of_int, NilZero.string_of_uint.
  destruct (Z.to_int n) as [d|d]; destruct d; simpl;
    auto using uint_no_newline.
Qed.

Lemma repr_byte_no_newline (q : ascii) (c : byte) :
  q <> Py.newline -> Py.no_newline (Py.repr_byte q c) = true.
Proof.
  intro Hq. unfold Py.repr_byte.
  destruct (Ascii.eqb (ascii_of_byte c) q) eqn:Eq.
  - apply Ascii.eqb_eq in Eq. simpl. rewrite Eq.
    apply Ascii.eqb_neq in Hq. now rewrite Hq.
  - destruct c; vm_compute; reflexivity.
Qed.

Lemma repr_body_no_newline (q : ascii) (b : list byte) :
  q <> Py.newline -> Py.no_newline (Py.repr_body q b) = true.
Proof.
  intro Hq. induction b as [|c b IH]; simpl; [reflexivity|].
  rewrite no_newline_app, IH, repr_byte_no_newline by assumption.
  reflexivity.
Qed.

Lemma repr_bytes_no_newline (b : list byte) :
  Py.no_newline (Py.repr_bytes b) = true.
Proof.
  unfold Py.repr_bytes.
  assert (Hq : Py.repr_quote b <> Py.newline).
  { unfold Py.repr_quote. destruct (_ && _)%bool; discriminate. }
  cbn [Py.no_newline]. rewrite no_newline_app, repr_body_no_newline by exact Hq.
  apply Ascii.eqb_neq in Hq.
  cbn. rewrite Hq.
  destruct (Py.repr_quote b) eqn:E; unfold Py.repr_quote in E;
    destruct (_ && _)%bool; inversion E; reflexivity.
Qed.

Lemma header_no_newline (direction : string) (event : Event) (t : Z) :
  Py.no_newline direction = true ->
  Py.no_newline (header direction event t) = true.
Proof.
  intro Hd. unfold header.
  repeat (rewrite no_newline_app);
    rewrite ?str_int_no_newline, ?repr_bytes_no_newline, ?Hd.
  reflexivity.
Qed.

End Text.

(** ** The formatter *)

Section Formatter.

Open Scope string_scope.

Let nl : string := String Py.newline EmptyString.

Lemma index_EVENT_TYPES (i : Z) :
  i = 0 \/ i = 1 ->
  exists d, Py.index EVENT_TYPES i = Some d /\ (d = "OUTPUT" \/ d = "INPUT").
Proof.
  intros [-> | ->]; [exists "OUTPUT" | exists "INPUT"]; auto.
Qed.

Lemma printevent_text (event : Event) (t : Z) (out d : string) :
  Py.index EVENT_TYPES (etype event) = Some d ->
  printevent event t out
  = Some (out ++ header d event t ++ nl ++ payload_repr event ++ nl).
Proof.
  intro H. unfold printevent, Py.print. rewrite H.
  now rewrite !string_app_assoc.
Qed.

(** What [handleevent] leaves on standard output while [running]. *)
Lemma handleevent_stdout (clk : Clocks) (w : Z) (event : Event)
    (p : Pipeline) (d : string) :
  running p = true ->
  Py.index EVENT_TYPES (etype event) = Some d ->
  stdout (handleevent clk w event p)
  = stdout p ++ header d event (rawtime event + clockoffset (calibrator p))
    ++ nl ++ payload_repr event ++ nl.
Proof.
  intros Hr Hd. unfold handleevent, calibratetime. rewrite Hr.
  destruct (recalibrates _ _ _);
    [destruct (calculateclockoffset _ _)|];
    rewrite (printevent_text _ _ _ d Hd); reflexivity.
Qed.

(** The shape of what a record adds to standard output.  For every record
    with a valid direction that the callback processes, standard output
    grows by exactly two physical lines.  The first is the header, whose
    fields come in the order DIRECTION, pid, tid, time, rawtime, cgid,
    inode, pidtgid, nsid, comm, len, with DIRECTION either OUTPUT or INPUT,
    [time] the calibrated value and [rawtime] the monotonic value of the
    record; the second is the line [printevent] makes of the payload. *)
Theorem printevent_two_lines (clk : Clocks) (wallclocktime : Z)
    (event : Event) (p : Pipeline) :
  running p = true ->
  etype event = 0 \/ etype event = 1 ->
  exists DIRECTION : string,
    let time := rawtime event + clockoffset (calibrator p) in
    let head :=
      "<" ++ DIRECTION
      ++ " pid=" ++ Py.str_int (pid_of (pidtgid event))
      ++ " tid=" ++ Py.str_int (tid_of (pidtgid event))
      ++ " time=" ++ Py.str_int time
      ++ " rawtime=" ++ Py.str_int (rawtime event)
      ++ " cgid=" ++ Py.str_int (cgid event)
      ++ " inode=" ++ Py.str_int (inode event)
      ++ " pidtgid=" ++ Py.str_int (pidtgid event)
      ++ " nsid=" ++ Py.str_int (nsid event)
      ++ " comm=" ++ Py.repr_bytes (Py.char_array_get (comm event))
      ++ " len=" ++ Py.str_int (len event) ++ ">" in
    let payload := payload_repr event in
    (DIRECTION = "OUTPUT" \/ DIRECTION = "INPUT")
    /\ stdout (handleevent clk wallclocktime event p)
       = stdout p ++ head ++ nl ++ payload ++ nl
    /\ Py.lines (head ++ nl ++ payload ++ nl) = [head; payload].
Proof.
  intros Hr He.
  destruct (index_EVENT_TYPES _ He) as (d & Hd & Hdir).
  exists d. cbv zeta.
  change ("<" ++ d ++ " pid=" ++ _)
    with (header d event (rawtime event + clockoffset (calibrator p))).
  split; [exact Hdir|]. split.
  - now apply handleevent_stdout.
  - apply lines_two.
    + apply header_no_newline. destruct Hdir as [-> | ->]; reflexivity.
    + apply repr_bytes_no_newline.
Qed.

Lemma printevent_two_lines_witness :
  exists DIRECTION : string,
    (DIRECTION = "OUTPUT" \/ DIRECTION = "INPUT")
    /\ Py.lines
         (stdout (handleevent steady_clocks 1700000000000004300
                    bash_ls_event (fresh_pipeline steady_clocks)))
       = ["<" ++ DIRECTION ++ " pid=4242 tid=7 time=1700000000000004255 rawtime=5000 cgid=11 inode=34 pidtgid=18219251269639 nsid=4026531836 comm=b'bash' len=3>";
          "b'ls\n'"].
Proof.
  destruct (printevent_two_lines steady_clocks 1700000000000004300
              bash_ls_event (fresh_pipeline steady_clocks))
    as (d & Hd & Hout & Hlines).
  - reflexivity.
  - left; reflexivity.
  - exists d. split; [exact Hd|].
    rewrite Hout. destruct Hd as [-> | ->]; vm_compute; reflexivity.
Defined.

(** C8 as stated fails: for the record of the end-to-end scenario the
    callback prints two lines, and the header does not contain
    [comm=bash len=3]: the command name is printed as the bytes literal
    [b'bash']. *)
Lemma end_to_end_header_lacks_plain_comm :
  exists head payload : string,
    Py.lines
      (stdout (handleevent steady_clocks 1700000000000004300
                 bash_ls_event (fresh_pipeline steady_clocks)))
    = [head; payload]
    /\ ~ (exists pre post : string, head = pre ++ "comm=bash len=3" ++ post).
Proof.
  eexists. eexists. split.
  - vm_compute. reflexivity.
  - intros (pre & post & H).
    pose proof (contains_complete "comm=bash len=3" pre post) as Hc.
    rewrite <- H in Hc. vm_compute in Hc. discriminate Hc.
Qed.

(** C8, amended.  A record with direction OUTPUT, combined identifier
    [(4242 << 32) | 7], command [bash], payload [ls] and a newline, and
    length 3, handled while [running], adds exactly two lines to standard
    output, whatever its inode: a header that starts
    [<OUTPUT pid=4242 tid=7] and ends [comm=b'bash' len=3>], and the
    escaped payload [b'ls\n']. *)
Theorem end_to_end_bash_ls (clk : Clocks) (wallclocktime : Z)
    (event : Event) (p : Pipeline) (comm_rest buf_rest : list byte) :
  running p = true ->
  etype event = 0 ->
  pidtgid event = Z.lor (Z.shiftl 4242 32) 7 ->
  comm event = (bytes_of "bash" ++ Py.NUL :: comm_rest)%list ->
  buf event = (bytes_of "ls" ++ x0a :: buf_rest)%list ->
  len event = 3 ->
  let head :=
    "<OUTPUT pid=4242 tid=7"
    ++ " time=" ++ Py.str_int (rawtime event + clockoffset (calibrator p))
    ++ " rawtime=" ++ Py.str_int (rawtime event)
    ++ " cgid=" ++ Py.str_int (cgid event)
    ++ " inode=" ++ Py.str_int (inode event)
    ++ " pidtgid=18219251269639"
    ++ " nsid=" ++ Py.str_int (nsid event)
    ++ " comm=b'bash' len=3>" in
  stdout (handleevent clk wallclocktime event p)
  = stdout p ++ head ++ nl ++ "b'ls\n'" ++ nl
  /\ Py.lines (head ++ nl ++ "b'ls\n'" ++ nl) = [head; "b'ls\n'"].
Proof.
  intros Hr He Hp Hc Hb Hl head.
  assert (Hhead : header "OUTPUT" event
                    (rawtime event + clockoffset (calibrator p)) = head).
  { unfold header, head. rewrite Hp, Hc, Hl. reflexivity. }
  assert (Hpay : payload_repr event = "b'ls\n'").
  { unfold payload_repr. rewrite Hb, Hl. reflexivity. }
  split.
  - rewrite (handleevent_stdout clk wallclocktime event p "OUTPUT" Hr)
      by (rewrite He; reflexivity).
    now rewrite Hhead, Hpay.
  - apply lines_two; [|reflexivity].
    rewrite <- Hhead. now apply header_no_newline.
Qed.

Lemma end_to_end_bash_ls_witness :
  stdout (handleevent steady_clocks 1700000000000004300
            bash_ls_event (fresh_pipeline steady_clocks))
  = "<OUTPUT pid=4242 tid=7 time=1700000000000004255 rawtime=5000 cgid=11 inode=34 pidtgid=18219251269639 nsid=4026531836 comm=b'bash' len=3>"
    ++ nl ++ "b'ls\n'" ++ nl.
Proof.
  exact (proj1 (end_to_end_bash_ls steady_clocks 1700000000000004300
                  bash_ls_event (fresh_pipeline steady_clocks)
                  (repeat Py.NUL 11) (repeat Py.NUL 4093)
                  eq_refl eq_refl eq_refl eq_refl eq_refl eq_refl)).
Defined.

(** The payload line is the bytes up to the first NUL of the array, cut at
    [len]. *)
Lemma char_array_get_firstn (raw : list byte) :
  Py.char_array_get raw = firstn (List.length (Py.char_array_get raw)) raw.
Proof.
  induction raw as [|c raw IH]; simpl; [reflexivity|].
  destruct (Byte.eqb c Py.NUL); simpl; [reflexivity|now rewrite <- IH].
Qed.

Lemma char_array_get_no_NUL (raw : list byte) :
  forallb (fun c => negb (Byte.eqb c Py.NUL)) raw = true ->
  Py.char_array_get raw = raw.
Proof.
  induction raw as [|c raw IH]; simpl; [reflexivity|].
  intro H. apply andb_prop in H as [Hc Hr].
  apply negb_true_iff in Hc. rewrite Hc. now rewrite IH.
Qed.

Lemma char_array_get_app (pre rest : list byte) :
  forallb (fun c => negb (Byte.eqb c Py.NUL)) pre = true ->
  Py.char_array_get (pre ++ rest)%list
  = (pre ++ Py.char_array_get rest)%list.
Proof.
  induction pre as [|c pre IH]; simpl; [reflexivity|].
  intro H. apply andb_prop in H as [Hc Hr].
  apply negb_true_iff in Hc. rewrite Hc. now rewrite IH.
Qed.

(** Where the first [len] bytes hold no NUL, the payload line renders
    exactly those bytes. *)
Lemma payload_repr_without_NUL (event : Event) :
  0 <= len event ->
  forallb (fun c => negb (Byte.eqb c Py.NUL))
    (Py.slice_to (buf event) (len event)) = true ->
  payload_repr event
  = Py.repr_bytes (Py.slice_to (buf event) (len event)).
Proof.
  intros Hl H. unfold payload_repr, Py.slice_to in *.
  f_equal.
  rewrite <- (firstn_skipn (Z.to_nat (len event)) (buf event)) at 1.
  rewrite char_array_get_app by exact H.
  rewrite firstn_app, firstn_firstn, Nat.min_id.
  destruct (Nat.le_ge_cases (Z.to_nat (len event)) (List.length (buf event)))
    as [Hle|Hge].
  - rewrite firstn_length_le by exact Hle.
    now rewrite Nat.sub_diag, firstn_O, app_nil_r.
  - rewrite (skipn_all2 (buf event)) by exact Hge.
    simpl. now rewrite firstn_nil, app_nil_r.
Qed.

(** For a processed record whose declared payload holds no NUL, the second
    line is the escaped representation of exactly the declared [len]
    bytes. *)
Lemma printevent_whole_payload (clk : Clocks) (wallclocktime : Z)
    (event : Event) (p : Pipeline) (d : string) :
  running p = true ->
  Py.index EVENT_TYPES (etype event) = Some d ->
  0 <= len event ->
  forallb (fun c => negb (Byte.eqb c Py.NUL))
    (Py.slice_to (buf event) (len event)) = true ->
  stdout (handleevent clk wallclocktime event p)
  = stdout p ++ header d event (rawtime event + clockoffset (calibrator p))
    ++ nl ++ Py.repr_bytes (Py.slice_to (buf event) (len event)) ++ nl
  /\ Py.lines
       (header d event (rawtime event + clockoffset (calibrator p))
        ++ nl ++ Py.repr_bytes (Py.slice_to (buf event) (len event)) ++ nl)
     = [header d event (rawtime event + clockoffset (calibrator p));
        Py.repr_bytes (Py.slice_to (buf event) (len event))].
Proof.
  intros Hr Hd Hl Hn.
  rewrite (handleevent_stdout clk wallclocktime event p d Hr Hd).
  rewrite (payload_repr_without_NUL event Hl Hn).
  split; [reflexivity|].
  apply lines_two; [|apply repr_bytes_no_newline].
  apply header_no_newline.
  unfold Py.index in Hd. cbn [EVENT_TYPES List.length Z.of_nat] in Hd.
  destruct (0 <=? etype event)%Z.
  - destruct (Z.to_nat (etype event)) as [|[|[|n]]]; cbn in Hd;
      inversion Hd; reflexivity.
  - destruct (_ <=? etype event)%Z; [|discriminate].
    destruct (Z.to_nat _) as [|[|[|n]]]; cbn in Hd;
      inversion Hd; reflexivity.
Qed.

(** C7.  The code at a valid record whose three declared payload bytes are
    [a], NUL, [b], handled while [running]: two lines are printed, the
    header with its fields in the fixed order and [len=3], but the second
    line is [b'a'], not the escaped representation [b'a\x00b'] of the
    record's payload.  The header and the two-line shape are as claimed
    for every valid record; the second line is the escaped payload only
    when the declared bytes hold no NUL. *)
Theorem second_line_is_not_the_escaped_payload :
  running (fresh_pipeline steady_clocks) = true
  /\ etype nul_event = 1
  /\ Py.slice_to (buf nul_event) (len nul_event) = [x61; x00; x62]
  /\ Py.repr_bytes (Py.slice_to (buf nul_event) (len nul_event))
     = "b'a\x00b'"
  /\ Py.lines
       (stdout (handleevent steady_clocks 1700000000000004300 nul_event
                  (fresh_pipeline steady_clocks)))
     = ["<INPUT pid=4242 tid=7 time=1700000000000004255 rawtime=5000 cgid=11 inode=34 pidtgid=18219251269639 nsid=4026531836 comm=b'cat' len=3>";
        "b'a'"].
Proof. repeat split; vm_compute; reflexivity. Qed.

End Formatter.


(** ** The payload line and the declared length *)

(** With a declared length of zero the payload line is the empty bytes
    literal. *)
Lemma payload_repr_empty (event : Event) :
  len event = 0 -> payload_repr event = "b''"%string.
Proof.
  intro H. unfold payload_repr, Py.slice_to. rewrite H. reflexivity.
Qed.

(** C2.  The code at a record whose three declared payload bytes are [a],
    NUL, [b]: rendering the declared three bytes would give
    [b'a\x00b'], but the line printed is [b'a'], because reading the
    [c_char] array stops at the first NUL before the slice is taken. *)
Theorem payload_repr_stops_at_NUL :
  len nul_event = 3
  /\ Py.slice_to (buf nul_event) (len nul_event) = [x61; x00; x62]
  /\ Py.repr_bytes (Py.slice_to (buf nul_event) (len nul_event))
     = "b'a\x00b'"%string
  /\ payload_repr nul_event = "b'a'"%string.
Proof. repeat split; reflexivity. Qed.

(** ** Self-exclusion *)

(** C1 as stated fails: take 34 for the inode of the capture process's own
    output device; a record with that inode, handled while [running], is
    formatted and printed. *)
Lemma own_device_record_is_formatted :
  inode bash_ls_event = 34
  /\ running (fresh_pipeline steady_clocks) = true
  /\ stdout (handleevent steady_clocks 1700000000000004300
               bash_ls_event (fresh_pipeline steady_clocks))
     <> stdout (fresh_pipeline steady_clocks).
Proof.
  split; [reflexivity|]. split; [reflexivity|].
  vm_compute. discriminate.
Qed.

Lemma string_app_neq (s t : string) :
  t <> EmptyString -> (s ++ t)%string <> s.
Proof.
  intros Ht H. apply Ht.
  induction s as [|c s IH]; simpl in H; [exact H|].
  injection H as H. exact (IH H).
Qed.

(** C1, amended.  The callback has no exclusion inode and no filter: a
    record whose inode equals that of the capture process's own output
    device, handled while [running] with a direction of OUTPUT or INPUT,
    is not discarded.  It is calibrated, and it is passed to the formatter
    with the calibrated time: standard output grows by its header, which
    carries that inode, and its payload line, whatever its direction and
    payload. *)
Theorem handleevent_has_no_inode_filter (clk : Clocks) (wallclocktime : Z)
    (event : Event) (p : Pipeline) (excluded : Z) :
  inode event = excluded ->
  running p = true ->
  etype event = 0 \/ etype event = 1 ->
  exists d : string,
    (d = "OUTPUT" \/ d = "INPUT")%string
    /\ calibrator (handleevent clk wallclocktime event p)
       = snd (calibratetime clk (calibrator p) (rawtime event) wallclocktime)
    /\ printevent event (rawtime event + clockoffset (calibrator p))
         (stdout p)
       = Some (stdout (handleevent clk wallclocktime event p))
    /\ stdout (handleevent clk wallclocktime event p)
       = (stdout p
          ++ header d event (rawtime event + clockoffset (calibrator p))
          ++ String Py.newline EmptyString
          ++ payload_repr event ++ String Py.newline EmptyString)%string
    /\ stdout (handleevent clk wallclocktime event p) <> stdout p.
Proof.
  intros _ Hr He.
  destruct (index_EVENT_TYPES _ He) as (d & Hd & Hdir).
  exists d. split; [exact Hdir|].
  pose proof (handleevent_stdout clk wallclocktime event p d Hr Hd) as Hout.
  split; [|split; [|split]].
  - unfold handleevent. rewrite Hr.
    destruct (calibratetime clk (calibrator p) (rawtime event) wallclocktime)
      as [t c].
    destruct (printevent event t (stdout p)); reflexivity.
  - rewrite Hout. apply printevent_text. exact Hd.
  - exact Hout.
  - rewrite Hout. apply string_app_neq. unfold header. discriminate.
Qed.

Lemma handleevent_has_no_inode_filter_witness :
  stdout (handleevent steady_clocks 1700000000000004300
            bash_ls_event (fresh_pipeline steady_clocks))
  <> stdout (fresh_pipeline steady_clocks).
Proof.
  destruct (handleevent_has_no_inode_filter steady_clocks 1700000000000004300
              bash_ls_event (fresh_pipeline steady_clocks) 34
              eq_refl eq_refl (or_introl eq_refl))
    as (d & _ & _ & _ & _ & Hne).
  exact Hne.
Defined.

(** ** Splitting the combined identifier *)

Lemma tid_of_mod (combined : Z) : tid_of combined = combined mod 2 ^ 32.
Proof.
  unfold tid_of. change 4294967295 with (Z.ones 32).
  apply Z.land_ones. lia.
Qed.

Lemma pid_of_div (combined : Z) : pid_of combined = combined / 2 ^ 32.
Proof. unfold pid_of. apply Z.shiftr_div_pow2. lia. Qed.

(** C4.  For every 64-bit combined value, the process id is its high 32
    bits and the thread id its low 32 bits, each within 32 bits, and the
    combined value is recovered as [(pid << 32) | tid]. *)
Theorem pidtgid_split_invertible (combined : Z) :
  u64 combined ->
  u32 (pid_of combined) /\ u32 (tid_of combined)
  /\ combined = Z.lor (Z.shiftl (pid_of combined) 32) (tid_of combined).
Proof.
  unfold u64, u32. intros H.
  split; [|split].
  - rewrite pid_of_div. split.
    + apply Z.div_pos; lia.
    + apply Z.div_lt_upper_bound; lia.
  - rewrite tid_of_mod. apply Z.mod_pos_bound. lia.
  - apply Z.bits_inj'. intros n Hn.
    rewrite Z.lor_spec, Z.shiftl_spec by exact Hn.
    unfold pid_of, tid_of. change 4294967295 with (Z.ones 32).
    rewrite Z.land_spec.
    destruct (Z.lt_ge_cases n 32) as [Hlt|Hge].
    + rewrite (Z.testbit_neg_r _ (n - 32)) by lia.
      rewrite Z.ones_spec_low by lia.
      now rewrite andb_true_r.
    + rewrite Z.shiftr_spec by lia.
      rewrite Z.ones_spec_high by lia.
      rewrite andb_false_r, orb_false_r.
      f_equal. lia.
Qed.

Lemma pidtgid_split_invertible_witness :
  pid_of 18219251269639 = 4242 /\ tid_of 18219251269639 = 7
  /\ 18219251269639
     = Z.lor (Z.shiftl (pid_of 18219251269639) 32) (tid_of 18219251269639).
Proof.
  split; [reflexivity|]. split; [reflexivity|].
  apply (pidtgid_split_invertible 18219251269639).
  unfold u64. lia.
Defined.

(** ** The clock calibrator *)

Lemma calibratetime_value (clk : Clocks) (c : Calibrator) (r w : Z) :
  fst (calibratetime clk c r w) = r + clockoffset c.
Proof.
  unfold calibratetime.
  destruct (recalibrates c r w); [destruct (calculateclockoffset _ _)|];
    reflexivity.
Qed.

Lemma calibratetime_state (clk : Clocks) (c : Calibrator) (r w : Z) :
  snd (calibratetime clk c r w)
  = if recalibrates c r w
    then {| clockoffset := time_ns clk (calibrations c)
                           - monotonic_ns clk (calibrations c);
            lastupdate := time_ns clk (calibrations c);
            calibrations := S (calibrations c) |}
    else c.
Proof.
  unfold calibratetime, calculateclockoffset.
  destruct (recalibrates c r w); reflexivity.
Qed.

Lemma calibratetime_calibrations (clk : Clocks) (c : Calibrator) (r w : Z) :
  (calibrations c <= calibrations (snd (calibratetime clk c r w)))%nat.
Proof.
  rewrite calibratetime_state. destruct (recalibrates c r w); simpl; lia.
Qed.

Lemma calibrate_all_cons (clk : Clocks) (c : Calibrator) (r w : Z)
    (rest : list (Z * Z)) :
  calibrate_all clk c ((r, w) :: rest)
  = (fst (calibratetime clk c r w)
       :: fst (calibrate_all clk (snd (calibratetime clk c r w)) rest),
     snd (calibrate_all clk (snd (calibratetime clk c r w)) rest)).
Proof.
  simpl. destruct (calibratetime clk c r w) as [t c1]. simpl.
  destruct (calibrate_all clk c1 rest). reflexivity.
Qed.

Lemma calibrate_all_calibrations (clk : Clocks) (evs : list (Z * Z)) :
  forall c,
    (calibrations c <= calibrations (snd (calibrate_all clk c evs)))%nat.
Proof.
  induction evs as [|[r w] rest IH]; intro c.
  - simpl. lia.
  - rewrite calibrate_all_cons. cbn [snd].
    pose proof (calibratetime_calibrations clk c r w).
    pose proof (IH (snd (calibratetime clk c r w))). lia.
Qed.

(** Times already returned are not touched by what is processed later. *)
Lemma calibrate_all_app (clk : Clocks) (evs more : list (Z * Z)) :
  forall c,
    fst (calibrate_all clk c (evs ++ more))
    = fst (calibrate_all clk c evs)
      ++ fst (calibrate_all clk (snd (calibrate_all clk c evs)) more).
Proof.
  induction evs as [|[r w] rest IH]; intro c.
  - reflexivity.
  - rewrite <- app_comm_cons, !calibrate_all_cons. cbn [fst snd].
    now rewrite IH.
Qed.

Lemma Sorted_shift (o : Z) (l : list Z) :
  Sorted Z.le l -> Sorted Z.le (map (fun x => x + o) l).
Proof.
  induction 1 as [|x l Hs IH Hd]; simpl; constructor.
  - exact IH.
  - destruct Hd; simpl; constructor. lia.
Qed.

(** A run of the calibrator that ends with the count of calibrations it
    started with has not recalibrated: every time is the [rawtime] plus
    the starting offset, and the state is unchanged. *)
Lemma calibrate_all_unchanged (clk : Clocks) (c : Calibrator)
    (evs : list (Z * Z)) :
  calibrations (snd (calibrate_all clk c evs)) = calibrations c ->
  fst (calibrate_all clk c evs) = map (fun ev => fst ev + clockoffset c) evs
  /\ snd (calibrate_all clk c evs) = c.
Proof.
  intro Hn. induction evs as [|[r w] rest IH].
  - split; reflexivity.
  - rewrite calibrate_all_cons in *. cbn [fst snd] in *.
    pose proof (calibrate_all_calibrations clk rest
                  (snd (calibratetime clk c r w))) as Hle.
    assert (Hc : snd (calibratetime clk c r w) = c).
    { pose proof (calibratetime_calibrations clk c r w) as Hle'.
      rewrite calibratetime_state in *.
      destruct (recalibrates c r w); [simpl in *; lia|reflexivity]. }
    rewrite Hc in *. destruct (IH Hn) as [IH1 IH2].
    rewrite calibratetime_value, IH1, IH2. split; reflexivity.
Qed.

(** C5.  For a sequence of events with non-decreasing [rawtime], handled
    with no recalibration between them, that is, none triggered by any
    event but the last, every calibrated time is the [rawtime] plus the
    offset in force, and the calibrated times are non-decreasing.  The
    last event may itself trigger a recalibration: its time is computed
    before the offset is replaced. *)
Theorem calibrated_times_nondecreasing (clk : Clocks) (c : Calibrator)
    (evs : list (Z * Z)) :
  Sorted Z.le (map fst evs) ->
  calibrations (snd (calibrate_all clk c (removelast evs))) = calibrations c ->
  fst (calibrate_all clk c evs) = map (fun ev => fst ev + clockoffset c) evs
  /\ snd (calibrate_all clk c (removelast evs)) = c
  /\ Sorted Z.le (fst (calibrate_all clk c evs)).
Proof.
  intros Hs Hn.
  destruct (calibrate_all_unchanged clk c (removelast evs) Hn) as [H1 H2].
  assert (H : fst (calibrate_all clk c evs)
              = map (fun ev => fst ev + clockoffset c) evs).
  { destruct evs as [|e0 evs0]; [reflexivity|].
    assert (Hne : e0 :: evs0 <> []) by discriminate.
    pose proof (app_removelast_last e0 Hne) as Hsplit.
    set (l := e0 :: evs0) in *.
    set (init := removelast l) in *. set (final := last l e0) in *.
    rewrite Hsplit.
    rewrite calibrate_all_app, H1, H2, map_app.
    f_equal. destruct final as [r w].
    rewrite calibrate_all_cons. cbn [fst calibrate_all map].
    now rewrite calibratetime_value. }
  split; [exact H|]. split; [exact H2|].
  rewrite H, <- (map_map fst (fun x => x + clockoffset c)).
  now apply Sorted_shift.
Qed.

Lemma calibrated_times_nondecreasing_witness :
  fst (calibrate_all steady_clocks steady_calibrator
         [(2000, 1700000000000001255); (2000, 1700000000000001300);
          (3500, 1700000000002000000)])
  = [1700000000000001255; 1700000000000001255; 1700000000000002755]
  /\ calibrations
       (snd (calibrate_all steady_clocks steady_calibrator
               [(2000, 1700000000000001255); (2000, 1700000000000001300);
                (3500, 1700000000002000000)])) = 2%nat
  /\ Sorted Z.le
       (fst (calibrate_all steady_clocks steady_calibrator
               [(2000, 1700000000000001255); (2000, 1700000000000001300);
                (3500, 1700000000002000000)])).
Proof.
  destruct (calibrated_times_nondecreasing steady_clocks steady_calibrator
              [(2000, 1700000000000001255); (2000, 1700000000000001300);
               (3500, 1700000000002000000)]) as (H1 & _ & H3).
  - simpl. repeat constructor; lia.
  - reflexivity.
  - split; [rewrite H1; reflexivity|]. split; [reflexivity|exact H3].
Defined.

(** C6.  When handling an event triggers a recalibration, the offset and
    the last-calibrated timestamp are replaced by the new clock readings,
    yet the time returned for that event is the one computed with the
    previous offset; it stays first in the sequence of returned times
    whatever follows, and the events that follow are calibrated with the
    new offset.  In general the times returned for a sequence of events
    are a prefix of the times returned once more events have been handled:
    nothing already returned is revised. *)
Theorem recalibration_not_retroactive (clk : Clocks) (c : Calibrator)
    (rawtime wallclocktime : Z) :
  recalibrates c rawtime wallclocktime = true ->
  let n := calibrations c in
  let c' := {| clockoffset := time_ns clk n - monotonic_ns clk n;
               lastupdate := time_ns clk n;
               calibrations := S n |} in
  calibratetime clk c rawtime wallclocktime = (rawtime + clockoffset c, c')
  /\ (forall later : list (Z * Z),
        fst (calibrate_all clk c ((rawtime, wallclocktime) :: later))
        = (rawtime + clockoffset c) :: fst (calibrate_all clk c' later))
  /\ (forall rawtime' wallclocktime' : Z,
        fst (calibratetime clk c' rawtime' wallclocktime')
        = rawtime' + (time_ns clk n - monotonic_ns clk n))
  /\ (forall (c0 : Calibrator) (earlier more : list (Z * Z)),
        fst (calibrate_all clk c0 (earlier ++ more))
        = fst (calibrate_all clk c0 earlier)
          ++ fst (calibrate_all clk (snd (calibrate_all clk c0 earlier))
                    more)).
Proof.
  intros H n c'.
  assert (E : calibratetime clk c rawtime wallclocktime
              = (rawtime + clockoffset c, c')).
  { unfold calibratetime, calculateclockoffset. rewrite H. reflexivity. }
  split; [exact E|]. split; [|split].
  - intro later. rewrite calibrate_all_cons, E. reflexivity.
  - intros r' w'. now rewrite calibratetime_value.
  - intros c0 earlier more. apply calibrate_all_app.
Qed.

Lemma recalibration_not_retroactive_witness :
  calibratetime drifting_clocks (calibratetimefactory drifting_clocks)
    5000 1700000000002000000
  = (1700000000000005000,
     {| clockoffset := 1700000000000001000 - 1007;
        lastupdate := 1700000000000001000; calibrations := 2 |}).
Proof.
  exact (proj1 (recalibration_not_retroactive drifting_clocks
                  (calibratetimefactory drifting_clocks)
                  5000 1700000000002000000 eq_refl)).
Defined.

(** ** When the calibrator recalibrates *)

(** Rounding an integer below [2 ^ (53 + k)] in magnitude to a double moves
    it by at most [2 ^ (k - 1)]. *)
Lemma round_double_error (z k : Z) :
  1 <= k -> Z.abs z < 2 ^ (53 + k) ->
  Z.abs (Py.round_double z - z) <= 2 ^ (k - 1).
Proof.
  intros Hk Hz.
  assert (Hk1 : 0 < 2 ^ (k - 1)) by (apply Z.pow_pos_nonneg; lia).
  unfold Py.round_double.
  destruct (Z.leb_spec (Z.log2 (Z.abs z) - 52) 0) as [He|He].
  - rewrite Z.sub_diag. simpl. lia.
  - assert (Ha : 0 < Z.abs z).
    { destruct (Z.eq_dec (Z.abs z) 0) as [E|E].
      - rewrite E in He. simpl in He. lia.
      - pose proof (Z.abs_nonneg z). lia. }
    assert (Hek : Z.log2 (Z.abs z) - 52 <= k).
    { apply Z.log2_lt_pow2 in Hz; [lia|exact Ha]. }
    set (e := Z.log2 (Z.abs z) - 52) in *.
    assert (Hpow : 2 ^ e = 2 * 2 ^ (e - 1)).
    { replace e with (Z.succ (e - 1)) at 1 by lia.
      apply Z.pow_succ_r. lia. }
    assert (Hh : 0 < 2 ^ (e - 1) <= 2 ^ (k - 1)).
    { split; [apply Z.pow_pos_nonneg; lia|apply Z.pow_le_mono_r; lia]. }
    pose proof (Z.div_mod (Z.abs z) (2 ^ e)) as Hdm.
    pose proof (Z.mod_pos_bound (Z.abs z) (2 ^ e)) as Hr.
    set (P := 2 ^ e) in *. set (h := 2 ^ (e - 1)) in *.
    set (q := Z.abs z / P) in *. set (r := Z.abs z mod P) in *.
    assert (HP : 0 < P) by lia.
    specialize (Hdm ltac:(lia)). specialize (Hr HP).
    assert (Hqp : (q + 1) * P = q * P + P) by ring.
    assert (Hpq : P * q = q * P) by ring.
    destruct (Z.ltb_spec r h); [|destruct (Z.ltb_spec h r);
                                  [|destruct (Z.even q)]];
      destruct (Z.sgn_spec z) as [[Hz0 Hs]|[[Hz0 Hs]|[Hz0 Hs]]];
      rewrite Hs; rewrite ?Hqp; lia.
Qed.

(** For a last-calibration timestamp in the range of [time.time_ns()], the
    float sum [lastupdate + UPDATE_INTERVAL] is within 2048 ns of the exact
    sum. *)
Lemma update_threshold_error (updated : Z) :
  - 2 ^ 63 <= updated < 2 ^ 63 ->
  Z.abs (Py.int_add_float updated UPDATE_INTERVAL
         - (updated + UPDATE_INTERVAL)) <= 2048.
Proof.
  intro H. unfold Py.int_add_float, UPDATE_INTERVAL.
  change (2 ^ 63) with 9223372036854775808 in H.
  assert (H1 : Z.abs (Py.round_double updated - updated) <= 1024).
  { apply (round_double_error updated 11); [lia|].
    change (2 ^ (53 + 11)) with 18446744073709551616. lia. }
  assert (H2 : Z.abs (Py.round_double (Py.round_double updated + 60000000000)
                      - (Py.round_double updated + 60000000000)) <= 1024).
  { apply (round_double_error _ 11); [lia|].
    change (2 ^ (53 + 11)) with 18446744073709551616. lia. }
  lia.
Qed.

(** C3 as stated fails at the edge of the interval: the calibrator last
    updated at 1700000000000000255; an event handled 60 s and 1 ns later,
    with no drift at all, does not trigger a recalibration, because the
    float sum [lastupdate + 6e10] is 1700000060000000256. *)
Lemma elapsed_over_interval_without_recalibration :
  let rawtime := 60000001001 in
  let wallclocktime := 1700000060000000256 in
  wallclocktime - lastupdate steady_calibrator > 60000000000
  /\ wallclocktime - (rawtime + clockoffset steady_calibrator) = 0
  /\ Py.int_add_float (lastupdate steady_calibrator) UPDATE_INTERVAL
     = 1700000060000000256
  /\ calibratetime steady_clocks steady_calibrator rawtime wallclocktime
     = (wallclocktime, steady_calibrator).
Proof. vm_compute. repeat split; reflexivity. Qed.

(** C3, amended.  The calibrator recomputes its offset, once, exactly when
    the wall-clock time of the event exceeds the double-precision sum
    [lastupdate + 6e10] or the drift exceeds 1 ms; otherwise its state is
    unchanged.  For a last-calibration timestamp within the signed 64-bit
    range that sum lies within 2048 ns of 60 s after the last calibration.
    In particular an event handled 61 s after the last calibration
    triggers exactly one recalibration, drift or no drift, and a drift
    above 1 ms triggers one whatever the elapsed time. *)
Theorem recalibration_trigger (clk : Clocks) (c : Calibrator)
    (rawtime wallclocktime : Z) :
  - 2 ^ 63 <= lastupdate c < 2 ^ 63 ->
  let drift := Z.abs (wallclocktime - (rawtime + clockoffset c)) in
  let threshold := Py.int_add_float (lastupdate c) UPDATE_INTERVAL in
  let c' := snd (calibratetime clk c rawtime wallclocktime) in
  (threshold < wallclocktime \/ 1000000 < drift ->
   calibrations c' = S (calibrations c)
   /\ clockoffset c'
      = time_ns clk (calibrations c) - monotonic_ns clk (calibrations c)
   /\ lastupdate c' = time_ns clk (calibrations c))
  /\ (~ (threshold < wallclocktime \/ 1000000 < drift) -> c' = c)
  /\ Z.abs (threshold - (lastupdate c + 60000000000)) <= 2048
  /\ (61000000000 <= wallclocktime - lastupdate c ->
      calibrations c' = S (calibrations c))
  /\ (1000000 < drift -> calibrations c' = S (calibrations c)).
Proof.
  intros Hrange drift threshold c'.
  pose proof (update_threshold_error (lastupdate c) Hrange) as Herr.
  fold threshold in Herr. unfold UPDATE_INTERVAL in Herr.
  assert (Hcond : recalibrates c rawtime wallclocktime = true
                  <-> (threshold < wallclocktime \/ 1000000 < drift)).
  { unfold recalibrates, DRIFT_THRESHOLD. fold threshold. fold drift.
    rewrite orb_true_iff, !Z.ltb_lt. reflexivity. }
  assert (Hyes : threshold < wallclocktime \/ 1000000 < drift ->
                 calibrations c' = S (calibrations c)
                 /\ clockoffset c'
                    = time_ns clk (calibrations c)
                      - monotonic_ns clk (calibrations c)
                 /\ lastupdate c' = time_ns clk (calibrations c)).
  { intro H. apply Hcond in H. unfold c'.
    rewrite calibratetime_state, H. repeat split. }
  split; [exact Hyes|]. split; [|split; [exact Herr|split]].
  - intro H. unfold c'. rewrite calibratetime_state.
    destruct (recalibrates c rawtime wallclocktime) eqn:E; [|reflexivity].
    elim H. now apply Hcond.
  - intro H. apply Hyes. left. lia.
  - intro H. apply Hyes. right. exact H.
Qed.

Lemma recalibration_trigger_witness :
  calibrations
    (snd (calibratetime steady_clocks steady_calibrator
            61000001000 1700000061000000255))
  = 2%nat
  /\ calibrations
       (snd (calibratetime steady_clocks steady_calibrator
               2000 1700000000002000000))
     = 2%nat.
Proof.
  split.
  - destruct (recalibration_trigger steady_clocks steady_calibrator
                61000001000 1700000061000000255) as (_ & _ & _ & H & _).
    + vm_compute. split; [discriminate|reflexivity].
    + apply H. vm_compute. discriminate.
  - destruct (recalibration_trigger steady_clocks steady_calibrator
                2000 1700000000002000000) as (_ & _ & _ & _ & H).
    + vm_compute. split; [discriminate|reflexivity].
    + apply H. vm_compute. reflexivity.
Defined.

(** ** The events the probes submit *)

Lemma probe_read_length (mem : Memory) (n : nat) :
  forall addr bytes,
    probe_read mem addr n = Some bytes -> List.length bytes = n.
Proof.
  induction n as [|n IH]; intros addr bytes H; simpl in H.
  - now inversion H.
  - destruct (mem addr); [|discriminate].
    destruct (probe_read mem (addr + 1) n) eqn:E; [|discriminate].
    inversion H. simpl. f_equal. exact (IH _ _ E).
Qed.

Lemma store_length (a : list byte) (v : byte) :
  forall i, List.length (store a i v) = List.length a.
Proof.
  induction a as [|c a IH]; intros [|i]; simpl; auto.
Qed.

Lemma copy_over_length (dst src : list byte) :
  (List.length src <= List.length dst)%nat ->
  List.length (copy_over dst src) = List.length dst.
Proof.
  intro H. unfold copy_over. rewrite length_app, length_skipn. lia.
Qed.

(** The [size] both probes compute from [count]: between 0 and
    [PAGE_SIZE - 1], whatever [count] is, and unchanged by its conversions
    to [int] and to [u32]. *)
Lemma probe_size_bounds (count : Z) :
  let size := to_int (if to_ulong count <? PAGE_SIZE - 1
                      then to_ulong count else PAGE_SIZE - 1) in
  0 <= size <= 4095 /\ to_u32 size = size /\ to_ulong size = size.
Proof.
  unfold to_int, to_u32, to_ulong, PAGE_SIZE.
  pose proof (Z.mod_pos_bound count (2 ^ 64) ltac:(lia)) as Hc.
  set (u := count mod 2 ^ 64) in *.
  destruct (Z.ltb_spec u (4096 - 1)) as [Hlt|Hge].
  - rewrite (Z.mod_small (u + 2 ^ 31)) by lia.
    replace (u + 2 ^ 31 - 2 ^ 31) with u by lia.
    rewrite !Z.mod_small by lia. lia.
  - change ((4096 - 1 + 2 ^ 31) mod 2 ^ 32 - 2 ^ 31) with 4095.
    change (4095 mod 2 ^ 32) with 4095. change (4095 mod 2 ^ 64) with 4095.
    lia.
Qed.

Lemma printevent_succeeds (e : Event) (t : Z) (out : string) :
  etype e = 0 \/ etype e = 1 ->
  exists out', printevent e t out = Some out'.
Proof.
  intro H. destruct (index_EVENT_TYPES _ H) as (d & Hd & _).
  unfold printevent. rewrite Hd. eauto.
Qed.

Lemma tty_write_submits (ITER_IOVEC ITER_UBUF WRITE : Z)
    (a : tty_write_args) (e : Event) :
  kprobe__tty_write ITER_IOVEC ITER_UBUF WRITE a = Some e ->
  (forall slot, tw_slot a = Some slot -> List.length (buf slot) = 4096%nat) ->
  0 <= len e <= 4095 /\ etype e = INPUT
  /\ List.length (buf e) = 4096%nat.
Proof.
  unfold kprobe__tty_write. intros H Hslot.
  destruct (negb (tw_iter_type a =? ITER_IOVEC)
            && negb (tw_iter_type a =? ITER_UBUF))%bool; [discriminate|].
  destruct (negb (tw_data_source a =? WRITE)); [discriminate|].
  destruct (if tw_iter_type a =? ITER_IOVEC
            then (tw_iov_base a, tw_iov_len a)
            else if tw_iter_type a =? ITER_UBUF
                 then (tw_ubuf a, tw_count a) else (0, 0))
    as [user_buf count].
  destruct ((user_buf =? 0) || (count =? 0))%bool; [discriminate|].
  destruct (tw_slot a) as [data|] eqn:Es; [|discriminate].
  destruct (probe_size_bounds count) as (Hb & Hu & Hl).
  set (size := to_int _) in *.
  destruct (probe_read (tw_user a) user_buf (Z.to_nat (to_u32 size)))
    as [bytes|] eqn:Er; [|discriminate].
  apply probe_read_length in Er. rewrite Hu in Er.
  specialize (Hslot data eq_refl).
  inversion H; subst e; clear H. cbn [len etype buf].
  rewrite Hu. split; [exact Hb|]. split; [reflexivity|].
  destruct (to_ulong size <? PAGE_SIZE); rewrite ?store_length;
    rewrite copy_over_length; lia.
Qed.

Lemma receive_buf_submits (a : receive_buf_args) (e : Event) :
  kprobe__n_tty_receive_buf_common a = Some e ->
  (forall slot, rb_slot a = Some slot -> List.length (buf slot) = 4096%nat) ->
  0 <= len e <= 4095 /\ etype e = OUTPUT
  /\ List.length (buf e) = 4096%nat.
Proof.
  unfold kprobe__n_tty_receive_buf_common. intros H Hslot.
  destruct (rb_cp a =? 0); [discriminate|].
  destruct (rb_slot a) as [data|] eqn:Es; [|discriminate].
  destruct (probe_size_bounds (rb_count a)) as (Hb & Hu & Hl).
  set (size := to_int _) in *.
  destruct (probe_read (rb_kernel a) (rb_cp a) (Z.to_nat (to_u32 size)))
    as [bytes|] eqn:Er; [|discriminate].
  apply probe_read_length in Er. rewrite Hu in Er.
  specialize (Hslot data eq_refl).
  inversion H; subst e; clear H. cbn [len etype buf].
  rewrite Hu. split; [exact Hb|]. split; [reflexivity|].
  rewrite store_length, copy_over_length; lia.
Qed.

(** C10.  Every event either probe submits, its slot being a whole
    [event_t], has a length of at most 4095 and type 0 or 1; so for it the
    lookup in [EVENT_TYPES] succeeds, the payload slice ends inside the
    4096-byte array, and [printevent] prints without raising. *)
Theorem probes_submit_printable_events (ITER_IOVEC ITER_UBUF WRITE : Z)
    (e : Event) :
  (exists a : tty_write_args,
     kprobe__tty_write ITER_IOVEC ITER_UBUF WRITE a = Some e
     /\ forall slot, tw_slot a = Some slot ->
                     List.length (buf slot) = 4096%nat)
  \/ (exists a : receive_buf_args,
        kprobe__n_tty_receive_buf_common a = Some e
        /\ forall slot, rb_slot a = Some slot ->
                        List.length (buf slot) = 4096%nat) ->
  0 <= len e <= 4095
  /\ (etype e = 0 \/ etype e = 1)
  /\ (exists d : string, Py.index EVENT_TYPES (etype e) = Some d)
  /\ len e < Z.of_nat (List.length (buf e))
  /\ forall (currenttime : Z) (out : string),
       exists out' : string, printevent e currenttime out = Some out'.
Proof.
  intro H.
  assert (H' : 0 <= len e <= 4095 /\ (etype e = 0 \/ etype e = 1)
               /\ List.length (buf e) = 4096%nat).
  { destruct H as [(a & Ha & Hs)|(a & Ha & Hs)].
    - destruct (tty_write_submits _ _ _ a e Ha Hs) as (? & ? & ?).
      unfold INPUT in *. auto.
    - destruct (receive_buf_submits a e Ha Hs) as (? & ? & ?).
      unfold OUTPUT in *. auto. }
  destruct H' as (Hl & Ht & Hb).
  split; [exact Hl|]. split; [exact Ht|]. split; [|split].
  - destruct (index_EVENT_TYPES _ Ht) as (d & Hd & _). eauto.
  - rewrite Hb. lia.
  - intros t out. now apply printevent_succeeds.
Qed.

Lemma probes_submit_printable_events_witness :
  exists e : Event,
    kprobe__tty_write 0 5 1 ls_write = Some e
    /\ len e = 3 /\ etype e = 1
    /\ payload_repr e = "b'ls\n'"%string
    /\ exists out : string, printevent e 0 EmptyString = Some out.
Proof.
  eexists. split; [vm_compute; reflexivity|].
  split; [reflexivity|]. split; [reflexivity|].
  split; [vm_compute; reflexivity|].
  eapply (probes_submit_printable_events 0 5 1).
  left. exists ls_write. split; [vm_compute; reflexivity|].
  intros slot Hs. inversion Hs. reflexivity.
Defined.

(** ** Signals, the callback and the poll loop *)

Lemma handleinterrupt_idempotent (p : Pipeline) :
  handleinterrupt (handleinterrupt p) = handleinterrupt p.
Proof. reflexivity. Qed.

(** Stepping through the callback with no signal in between is
    [handleevent]. *)
Lemma run_callback (clk : Clocks) (w : Z) (data : Event) (p : Pipeline) :
  running p = true ->
  run clk [Go; ClockIs w; Go; Go; Go]
    {| vars := p; control := AtRunningTest data |}
  = Some {| vars := handleevent clk w data p; control := Polling |}.
Proof.
  intro Hr. unfold handleevent. simpl. rewrite Hr. simpl.
  destruct (calibratetime clk (calibrator p) (rawtime data) w) as [t c].
  simpl. destruct (printevent data t (stdout p)); rewrite <- ?Hr;
    destruct p; reflexivity.
Qed.

Lemma run_callback_stopped (clk : Clocks) (w : Z) (data : Event)
    (p : Pipeline) :
  running p = false ->
  run clk [Go] {| vars := p; control := AtRunningTest data |}
  = Some {| vars := handleevent clk w data p; control := Polling |}.
Proof.
  intro Hr. unfold handleevent. simpl. rewrite Hr. reflexivity.
Qed.

Section Draining.

Variable clk : Clocks.
Variable p0 : Pipeline.
Variable k0 : Control.
Variable event : Event.
Variable t : Z.
Variable out : string.

Hypothesis in_flight : decoded_in_flight p0 k0 event t.
Hypothesis printed : printevent event t (stdout p0) = Some out.

Lemma draining_start :
  draining p0 k0 event t out
    {| vars := handleinterrupt p0; control := k0 |}.
Proof.
  unfold draining. cbn [vars control handleinterrupt running stdout
                        calibrator].
  split; [reflexivity|].
  destruct in_flight as [(w & -> & _)| ->]; auto.
Qed.

Lemma draining_step (i : Input) (s s' : Process) :
  draining p0 k0 event t out s ->
  step clk i s = Some s' ->
  draining p0 k0 event t out s'.
Proof.
  destruct s as [p k]. unfold draining, step. cbn [vars control].
  intros [Hr Hk] H.
  destruct i, k; try discriminate; try contradiction;
    try (inversion H; subst s'; clear H; cbn [vars control];
         rewrite ?Hr; split; [reflexivity|exact Hk]).
  - (* the record is calibrated *)
    destruct Hk as (Hk0 & -> & Hout & Hcal).
    assert (Ht : t = rawtime event + clockoffset (calibrator p0)).
    { destruct in_flight as [(w & _ & Ht)|Hp]; [exact Ht|].
      rewrite Hp in Hk0. discriminate. }
    pose proof (calibratetime_value clk (calibrator p) (rawtime event)
                  wallclocktime) as Hv.
    destruct (calibratetime clk (calibrator p) (rawtime event) wallclocktime)
      as [t' c].
    inversion H; subst s'; clear H. cbn [vars control running stdout].
    split; [exact Hr|]. cbn [fst] in Hv. rewrite Hcal in Hv.
    repeat split; [congruence|exact Hout].
  - (* the record is printed *)
    destruct Hk as (-> & -> & Hout).
    rewrite Hout, printed in H.
    inversion H; subst s'; clear H. cbn [vars control running stdout].
    split; [exact Hr|reflexivity].
Qed.

Lemma draining_run (inputs : list Input) :
  forall s s',
    draining p0 k0 event t out s ->
    run clk inputs s = Some s' ->
    draining p0 k0 event t out s'.
Proof.
  induction inputs as [|i rest IH]; intros s s' Hs H; simpl in H.
  - now inversion H; subst.
  - destruct (step clk i s) as [s1|] eqn:E; [|discriminate].
    exact (IH s1 s' (draining_step i s s1 Hs E) H).
Qed.

(** From the record in flight the process does get to the end of the
    loop, the record printed. *)
Lemma draining_ends :
  exists (steps : list Input) (s_end : Process),
    existsb is_signal steps = false
    /\ run clk (Signal :: Signal :: steps)
         {| vars := p0; control := k0 |} = Some s_end
    /\ control s_end = Exited
    /\ running (vars s_end) = false
    /\ stdout (vars s_end) = out.
Proof.
  destruct in_flight as [(w & -> & Ht)| ->].
  - exists [Go; Go; PollReturns; Go].
    pose proof (calibratetime_value clk (calibrator p0) (rawtime event) w)
      as Hv.
    cbn. destruct (calibratetime clk (calibrator p0) (rawtime event) w)
      as [t' c].
    cbn [fst] in Hv. rewrite <- Ht in Hv. subst t'. cbn. rewrite printed.
    cbn. eexists. split; [reflexivity|]. split; [reflexivity|]. cbn. auto.
  - exists [Go; PollReturns; Go].
    cbn. rewrite printed. cbn.
    eexists. split; [reflexivity|]. split; [reflexivity|]. cbn. auto.
Qed.

End Draining.




(** * Further properties of the code *)

(** ** The direction lookup and records it rejects *)

Lemma printevent_out_of_range (event : Event) (currenttime : Z)
    (out : string) :
  printevent event currenttime out = None
  <-> etype event < -2 \/ 1 < etype event.
Proof.
  unfold printevent, Py.index. cbn [EVENT_TYPES List.length Z.of_nat].
  destruct (Z.leb_spec 0 (etype event)) as [H0|H0].
  - destruct (Z.to_nat (etype event)) as [|[|n]] eqn:E; cbn.
    + split; [discriminate|lia].
    + split; [discriminate|lia].
    + destruct n; cbn; split; auto; lia.
  - change (Z.pos (Pos.of_succ_nat 1)) with 2.
    change (- (2)) with (Z.neg 2).
    destruct (Z.leb_spec (Z.neg 2) (etype event)) as [H2|H2].
    + assert (Hc : etype event = -2 \/ etype event = -1) by lia.
      destruct Hc as [-> | ->]; cbn; split; try discriminate; lia.
    + split; [lia|reflexivity].
Qed.

(** X1.  The lookup [EVENT_TYPES[event.etype]] follows Python indexing: 0
    and -2 give OUTPUT, 1 and -1 give INPUT, and any other value raises;
    [printevent] prints nothing and raises exactly for a type below -2 or
    above 1. *)
Theorem printevent_raises_iff (event : Event) (currenttime : Z)
    (out : string) :
  (etype event = 0 \/ etype event = -2 ->
   printevent event currenttime out
   = Some (out ++ event_text "OUTPUT" event currenttime)%string)
  /\ (etype event = 1 \/ etype event = -1 ->
      printevent event currenttime out
      = Some (out ++ event_text "INPUT" event currenttime)%string)
  /\ (printevent event currenttime out = None
      <-> etype event < -2 \/ 1 < etype event).
Proof.
  unfold event_text.
  split; [|split].
  - intros [H|H]; apply printevent_text; rewrite H; reflexivity.
  - intros [H|H]; apply printevent_text; rewrite H; reflexivity.
  - apply printevent_out_of_range.
Qed.

Lemma printevent_raises_iff_witness :
  printevent {| rawtime := 1; cgid := 2; inode := 3; pidtgid := 4; nsid := 5;
                comm := []; buf := []; len := 0; etype := -1 |} 9 EmptyString
  = Some "<INPUT pid=0 tid=4 time=9 rawtime=1 cgid=2 inode=3 pidtgid=4 nsid=5 comm=b'' len=0>
b''
"%string.
Proof.
  refine (proj1 (proj2 (printevent_raises_iff _ 9 EmptyString)) _).
  right. reflexivity.
Defined.

(** X2.  A record whose type is outside the range of [EVENT_TYPES],
    handled while [running]: nothing is printed and [running] stays set,
    but the calibrator has already been run on it, so a recalibration it
    triggers has taken place. *)
Theorem handleevent_rejected_record (clk : Clocks) (wallclocktime : Z)
    (event : Event) (p : Pipeline) :
  running p = true ->
  etype event < -2 \/ 1 < etype event ->
  stdout (handleevent clk wallclocktime event p) = stdout p
  /\ running (handleevent clk wallclocktime event p) = true
  /\ calibrator (handleevent clk wallclocktime event p)
     = snd (calibratetime clk (calibrator p) (rawtime event) wallclocktime).
Proof.
  intros Hr He. unfold handleevent. rewrite Hr.
  destruct (calibratetime clk (calibrator p) (rawtime event) wallclocktime)
    as [t c].
  apply (printevent_out_of_range event t (stdout p)) in He.
  rewrite He. cbn. auto.
Qed.

Lemma handleevent_rejected_record_witness :
  stdout (handleevent steady_clocks 1700000000002000000 stale_slot
            (fresh_pipeline steady_clocks)) = EmptyString
  /\ calibrations
       (calibrator (handleevent steady_clocks 1700000000002000000 stale_slot
                      (fresh_pipeline steady_clocks))) = 2%nat.
Proof.
  destruct (handleevent_rejected_record steady_clocks 1700000000002000000
              stale_slot (fresh_pipeline steady_clocks) eq_refl)
    as (H1 & _ & H3).
  - right. cbn. lia.
  - split; [exact H1|]. rewrite H3. reflexivity.
Defined.

(** ** What the payload line shows *)

Lemma char_array_get_slice (raw : list byte) :
  forall n : nat,
    firstn n (Py.char_array_get raw) = Py.char_array_get (firstn n raw).
Proof.
  induction raw as [|c raw IH]; intros [|n]; try reflexivity.
  cbn [firstn Py.char_array_get].
  destruct (Byte.eqb c Py.NUL); cbn [firstn]; [reflexivity|].
  now rewrite IH.
Qed.

(** X3.  The bytes the payload line renders are the declared [len] bytes
    of the buffer cut at their first NUL: never a byte beyond the declared
    length, and never a byte at or after a NUL. *)
Theorem payload_repr_declared_prefix (event : Event) :
  payload_repr event
  = Py.repr_bytes (Py.char_array_get (Py.slice_to (buf event) (len event)))
  /\ (List.length (Py.char_array_get (Py.slice_to (buf event) (len event)))
      <= Z.to_nat (len event))%nat
  /\ forallb (fun c => negb (Byte.eqb c Py.NUL))
       (Py.char_array_get (Py.slice_to (buf event) (len event))) = true.
Proof.
  unfold payload_repr, Py.slice_to. rewrite char_array_get_slice.
  split; [reflexivity|]. split.
  - rewrite char_array_get_firstn, length_firstn.
    pose proof (length_firstn (Z.to_nat (len event)) (buf event)). lia.
  - generalize (firstn (Z.to_nat (len event)) (buf event)) as l.
    induction l as [|c l IH]; simpl; [reflexivity|].
    destruct (Byte.eqb c Py.NUL) eqn:E; simpl; [reflexivity|].
    now rewrite E, IH.
Qed.

(** ** Only plain text reaches the log *)

Lemma plain_text_app (s t : string) :
  plain_text (s ++ t) = (plain_text s && plain_text t)%bool.
Proof.
  induction s as [|c s IH]; simpl; [reflexivity|].
  rewrite IH. now rewrite andb_assoc.
Qed.

Lemma uint_plain_text (d : Decimal.uint) :
  plain_text (NilEmpty.string_of_uint d) = true.
Proof. induction d; simpl; auto. Qed.

Lemma str_int_plain_text (n : Z) : plain_text (Py.str_int n) = true.
Proof.
  unfold Py.str_int, NilZero.string_of_int, NilZero.string_of_uint.
  destruct (Z.to_int n) as [d|d]; destruct d; simpl;
    auto using uint_plain_text.
Qed.

Lemma repr_byte_plain_text (q : ascii) (c : byte) :
  printable_char q = true -> plain_text (Py.repr_byte q c) = true.
Proof.
  intro Hq. unfold Py.repr_byte.
  destruct (Ascii.eqb (ascii_of_byte c) q) eqn:Eq.
  - apply Ascii.eqb_eq in Eq. rewrite Eq. cbn. now rewrite Hq.
  - destruct c; vm_compute; reflexivity.
Qed.

Lemma repr_body_plain_text (q : ascii) (b : list byte) :
  printable_char q = true -> plain_text (Py.repr_body q b) = true.
Proof.
  intro Hq. induction b as [|c b IH]; cbn; [reflexivity|].
  now rewrite plain_text_app, repr_byte_plain_text, IH.
Qed.

Lemma repr_bytes_plain_text (b : list byte) :
  plain_text (Py.repr_bytes b) = true.
Proof.
  unfold Py.repr_bytes.
  assert (Hq : printable_char (Py.repr_quote b) = true).
  { unfold Py.repr_quote. destruct (_ && _)%bool; reflexivity. }
  cbn [plain_text]. rewrite Hq.
  rewrite plain_text_app, repr_body_plain_text by exact Hq.
  cbn. now rewrite Hq.
Qed.

Lemma printevent_from_empty (event : Event) (t : Z) (out : string) :
  printevent event t out
  = option_map (fun text => (out ++ text)%string)
      (printevent event t EmptyString).
Proof.
  unfold printevent, Py.print.
  destruct (Py.index EVENT_TYPES (etype event)); [|reflexivity].
  cbn [option_map]. f_equal.
  change (EmptyString ++ ?x)%string with x.
  now rewrite !string_app_assoc.
Qed.

Lemma handleevent_running (clk : Clocks) (w : Z) (event : Event)
    (p : Pipeline) :
  running p = true ->
  handleevent clk w event p
  = {| running := true;
       calibrator := snd (calibratetime clk (calibrator p) (rawtime event) w);
       stdout := (stdout p
                  ++ record_text event
                       (rawtime event + clockoffset (calibrator p)))%string |}.
Proof.
  intro Hr. unfold handleevent, record_text. rewrite Hr.
  rewrite <- (calibratetime_value clk (calibrator p) (rawtime event) w).
  destruct (calibratetime clk (calibrator p) (rawtime event) w) as [t c].
  cbn [fst snd]. rewrite printevent_from_empty.
  destruct (printevent event t EmptyString); cbn.
  - reflexivity.
  - now rewrite string_app_nil_r.
Qed.

Lemma record_text_plain (event : Event) (t : Z) :
  plain_text (record_text event t) = true.
Proof.
  unfold record_text, printevent, Py.print.
  destruct (Py.index EVENT_TYPES (etype event)) as [d|] eqn:Hd;
    [|reflexivity].
  assert (Hdir : plain_text d = true).
  { unfold Py.index in Hd. cbn [EVENT_TYPES List.length Z.of_nat] in Hd.
    destruct (0 <=? etype event).
    - destruct (Z.to_nat (etype event)) as [|[|[|n]]]; cbn in Hd;
        inversion Hd; reflexivity.
    - destruct (_ <=? etype event); [|discriminate].
      destruct (Z.to_nat _) as [|[|[|n]]]; cbn in Hd;
        inversion Hd; reflexivity. }
  unfold header, payload_repr.
  rewrite !plain_text_app.
  rewrite !str_int_plain_text, !repr_bytes_plain_text, Hdir.
  reflexivity.
Qed.

(** X4.  Whatever bytes a record carries in its command name and payload,
    and whatever its numbers, what the callback appends to standard output
    is made of printable ASCII characters and newlines only: no control
    character and no byte above 126 reaches the log. *)
Theorem handleevent_appends_plain_text (clk : Clocks) (wallclocktime : Z)
    (event : Event) (p : Pipeline) :
  exists text : string,
    stdout (handleevent clk wallclocktime event p) = (stdout p ++ text)%string
    /\ plain_text text = true.
Proof.
  destruct (running p) eqn:Hr.
  - rewrite handleevent_running by exact Hr. cbn [stdout].
    eexists. split; [reflexivity|apply record_text_plain].
  - exists EmptyString. unfold handleevent. rewrite Hr.
    split; [now rewrite string_app_nil_r|reflexivity].
Qed.

(** ** The calibrator over its lifetime *)

Lemma calibrator_kept (clk : Clocks) (c : Calibrator) (r w : Z) :
  (1 <= calibrations c)%nat ->
  lastupdate c = time_ns clk (calibrations c - 1) ->
  clockoffset c
  = time_ns clk (calibrations c - 1) - monotonic_ns clk (calibrations c - 1) ->
  let c' := snd (calibratetime clk c r w) in
  (1 <= calibrations c')%nat
  /\ (calibrations c' <= S (calibrations c))%nat
  /\ lastupdate c' = time_ns clk (calibrations c' - 1)
  /\ clockoffset c'
     = time_ns clk (calibrations c' - 1)
       - monotonic_ns clk (calibrations c' - 1).
Proof.
  intros H1 H2 H3 c'. unfold c'. rewrite calibratetime_state.
  destruct (recalibrates c r w); cbn [calibrations lastupdate clockoffset].
  - rewrite Nat.sub_succ, Nat.sub_0_r. repeat split; lia.
  - repeat split; auto; lia.
Qed.

(** X5.  However many events the calibrator built by the factory has
    handled, its two variables are always the pair computed by the latest
    call of [calculateclockoffset] from one reading of each clock, and it
    has recalibrated at most once per event. *)
Theorem calibrator_holds_latest_reading (clk : Clocks) (evs : list (Z * Z)) :
  let c := snd (calibrate_all clk (calibratetimefactory clk) evs) in
  (1 <= calibrations c <= 1 + List.length evs)%nat
  /\ (clockoffset c, lastupdate c)
     = calculateclockoffset clk (calibrations c - 1).
Proof.
  assert (H : forall evs c0,
             (1 <= calibrations c0)%nat ->
             lastupdate c0 = time_ns clk (calibrations c0 - 1) ->
             clockoffset c0
             = time_ns clk (calibrations c0 - 1)
               - monotonic_ns clk (calibrations c0 - 1) ->
             let c := snd (calibrate_all clk c0 evs) in
             (1 <= calibrations c <= calibrations c0 + List.length evs)%nat
             /\ lastupdate c = time_ns clk (calibrations c - 1)
             /\ clockoffset c
                = time_ns clk (calibrations c - 1)
                  - monotonic_ns clk (calibrations c - 1)).
  { clear evs. induction evs as [|[r w] rest IH]; intros c0 H1 H2 H3.
    - cbn. repeat split; auto; lia.
    - cbv zeta. rewrite calibrate_all_cons. cbn [snd].
      destruct (calibrator_kept clk c0 r w H1 H2 H3) as (K1 & K2 & K3 & K4).
      destruct (IH _ K1 K3 K4) as (J1 & J2 & J3).
      split; [|split]; [|exact J2|exact J3].
      cbn [List.length]. lia. }
  intro c. unfold calculateclockoffset.
  destruct (H evs (calibratetimefactory clk)) as (J1 & J2 & J3);
    [cbn; lia|reflexivity|reflexivity|].
  fold c in J1, J2, J3.
  change (calibrations (calibratetimefactory clk)) with 1%nat in J1.
  split; [exact J1|]. now rewrite J2, J3.
Qed.

(** ** A batch of records *)

Lemma handle_all_stopped (clk : Clocks) (batch : list (Z * Event))
    (p : Pipeline) :
  running p = false -> handle_all clk batch p = p.
Proof.
  intro Hr. induction batch as [|[w e] rest IH]; [reflexivity|].
  cbn [handle_all]. unfold handleevent. now rewrite Hr.
Qed.

Lemma handle_all_running (clk : Clocks) (batch : list (Z * Event)) :
  forall p : Pipeline,
    running p = true ->
    handle_all clk batch p
    = {| running := true;
         calibrator :=
           snd (calibrate_all clk (calibrator p)
                  (map (fun we => (rawtime (snd we), fst we)) batch));
         stdout :=
           (stdout p
            ++ records_text (map snd batch)
                 (fst (calibrate_all clk (calibrator p)
                         (map (fun we => (rawtime (snd we), fst we))
                            batch))))%string |}.
Proof.
  induction batch as [|[w e] rest IH]; intros p Hr.
  - cbn. rewrite string_app_nil_r. destruct p; cbn in *. now subst.
  - cbn [handle_all map fst snd]. rewrite calibrate_all_cons.
    cbn [fst snd records_text].
    rewrite (handleevent_running clk w e p Hr).
    rewrite IH by reflexivity. cbn [calibrator stdout].
    rewrite calibratetime_value. now rewrite string_app_assoc.
Qed.

(** X6.  A batch of records handled one after the other while [running]:
    standard output grows by the records' texts in the order of delivery,
    each with the time the calibrator returns for it in that order, and
    the calibrator ends in the state reached by calibrating the records'
    timestamps in that order; [running] stays set.  With [running] cleared
    the whole batch is dropped and nothing changes. *)
Theorem handle_all_in_order (clk : Clocks) (batch : list (Z * Event))
    (p : Pipeline) :
  let stamps := map (fun we => (rawtime (snd we), fst we)) batch in
  let calibrated := calibrate_all clk (calibrator p) stamps in
  (running p = true ->
   handle_all clk batch p
   = {| running := true;
        calibrator := snd calibrated;
        stdout := (stdout p
                   ++ records_text (map snd batch) (fst calibrated))%string |})
  /\ (running p = false -> handle_all clk batch p = p).
Proof.
  cbv zeta. split; [apply handle_all_running|apply handle_all_stopped].
Qed.

Lemma handle_all_in_order_witness :
  Py.lines
    (stdout (handle_all steady_clocks
               [(1700000000000004300, bash_ls_event);
                (1700000000000004400, nul_event)]
               (fresh_pipeline steady_clocks)))
  = ["<OUTPUT pid=4242 tid=7 time=1700000000000004255 rawtime=5000 cgid=11 inode=34 pidtgid=18219251269639 nsid=4026531836 comm=b'bash' len=3>";
     "b'ls\n'";
     "<INPUT pid=4242 tid=7 time=1700000000000004255 rawtime=5000 cgid=11 inode=34 pidtgid=18219251269639 nsid=4026531836 comm=b'cat' len=3>";
     "b'a'"]%string.
Proof.
  rewrite (proj1 (handle_all_in_order steady_clocks
                    [(1700000000000004300, bash_ls_event);
                     (1700000000000004400, nul_event)]
                    (fresh_pipeline steady_clocks)) eq_refl).
  vm_compute. reflexivity.
Defined.

(** ** The process as a whole *)

Lemma step_grows (clk : Clocks) (i : Input) (s s' : Process) :
  step clk i s = Some s' ->
  (exists text : string,
     stdout (vars s') = (stdout (vars s) ++ text)%string
     /\ plain_text text = true)
  /\ (running (vars s) = false -> running (vars s') = false)
  /\ (calibrations (calibrator (vars s))
      <= calibrations (calibrator (vars s')))%nat.
Proof.
  destruct s as [p k]. unfold step. cbn [vars control].
  assert (Hsame : forall q k',
             stdout q = stdout p -> calibrator q = calibrator p ->
             (running p = false -> running q = false) ->
             Some {| vars := q; control := k' |} = Some s' ->
             (exists text : string,
                stdout (vars s') = (stdout p ++ text)%string
                /\ plain_text text = true)
             /\ (running p = false -> running (vars s') = false)
             /\ (calibrations (calibrator p)
                 <= calibrations (calibrator (vars s')))%nat).
  { intros q k' Ho Hc Hr H. inversion H; subst s'; clear H.
    cbn [vars]. rewrite Ho, Hc. split; [|split; [exact Hr|lia]].
    exists EmptyString. now rewrite string_app_nil_r. }
  destruct i, k; try discriminate;
    try (apply Hsame; auto; fail).
  - (* calibration *)
    pose proof (calibratetime_calibrations clk (calibrator p) (rawtime event)
                  wallclocktime) as Hc.
    destruct (calibratetime clk (calibrator p) (rawtime event) wallclocktime)
      as [t c].
    intro H. inversion H; subst s'; clear H. cbn [vars stdout running
                                                  calibrator snd] in *.
    split; [|split; [auto|exact Hc]].
    exists EmptyString. now rewrite string_app_nil_r.
  - (* printing *)
    destruct (printevent event currenttime (stdout p)) as [out|] eqn:E;
      [|apply Hsame; auto].
    intro H. inversion H; subst s'; clear H.
    cbn [vars stdout running calibrator].
    split; [|split; [auto|lia]].
    exists (record_text event currenttime).
    split; [|apply record_text_plain].
    rewrite printevent_from_empty in E. unfold record_text.
    destruct (printevent event currenttime EmptyString); cbn in E;
      [|discriminate].
    now inversion E.
Qed.

(** X7.  Along every run of the process, signals included, standard
    output only ever grows, and by plain text; [running], once cleared, is
    never set again; and the count of calibrations never decreases. *)
Theorem run_only_appends (clk : Clocks) (inputs : list Input)
    (s s' : Process) :
  run clk inputs s = Some s' ->
  (exists text : string,
     stdout (vars s') = (stdout (vars s) ++ text)%string
     /\ plain_text text = true)
  /\ (running (vars s) = false -> running (vars s') = false)
  /\ (calibrations (calibrator (vars s))
      <= calibrations (calibrator (vars s')))%nat.
Proof.
  revert s. induction inputs as [|i rest IH]; intros s H; cbn in H.
  - inversion H; subst s'. split; [|split; [auto|lia]].
    exists EmptyString. now rewrite string_app_nil_r.
  - destruct (step clk i s) as [s1|] eqn:E; [|discriminate].
    destruct (step_grows clk i s s1 E) as ((t1 & Ho1 & Hp1) & Hr1 & Hc1).
    destruct (IH s1 H) as ((t2 & Ho2 & Hp2) & Hr2 & Hc2).
    split; [|split; [auto|lia]].
    exists (t1 ++ t2)%string. split.
    + now rewrite Ho2, Ho1, string_app_assoc.
    + now rewrite plain_text_app, Hp1, Hp2.
Qed.

Lemma run_only_appends_witness :
  exists text : string,
    stdout (handleevent steady_clocks 1700000000000004300 bash_ls_event
              (fresh_pipeline steady_clocks))
    = text
    /\ plain_text text = true.
Proof.
  destruct (run_only_appends steady_clocks
              [Go; Deliver bash_ls_event; Go; ClockIs 1700000000000004300;
               Signal; Go; Go; Go; PollReturns; Go]
              (start steady_clocks)
              {| vars := handleinterrupt
                           (handleevent steady_clocks 1700000000000004300
                              bash_ls_event (fresh_pipeline steady_clocks));
                 control := Exited |})
    as ((text & Ht & Hp) & _ & _).
  - vm_compute. reflexivity.
  - exists text. split; [exact Ht|exact Hp].
Defined.

(** X8.  Without a termination request the loop never ends: along every
    run of the started process in which no signal is delivered, [running]
    stays set and control never reaches the end of the loop. *)
Theorem loop_ends_only_on_request (clk : Clocks) (inputs : list Input)
    (s : Process) :
  existsb is_signal inputs = false ->
  run clk inputs (start clk) = Some s ->
  running (vars s) = true /\ control s <> Exited.
Proof.
  assert (H : forall inputs s0,
             existsb is_signal inputs = false ->
             running (vars s0) = true -> control s0 <> Exited ->
             run clk inputs s0 = Some s ->
             running (vars s) = true /\ control s <> Exited).
  { clear inputs. induction inputs as [|i rest IH];
      intros s0 Hs Hr Hk Hrun; cbn in Hrun.
    - inversion Hrun; subst s. auto.
    - cbn in Hs. apply orb_false_iff in Hs as [Hi Hs].
      destruct (step clk i s0) as [s1|] eqn:E; [|discriminate].
      apply (IH s1 Hs); [| |exact Hrun];
        destruct s0 as [p k]; unfold step in E; cbn [vars control] in *;
        destruct i, k; try discriminate; try contradiction;
        try (destruct (calibratetime clk _ _ _));
        try (destruct (printevent _ _ _));
        inversion E; subst s1; cbn [vars control running];
        rewrite ?Hr; auto; discriminate. }
  intros Hs Hrun. apply (H inputs (start clk) Hs); auto. discriminate.
Qed.

Lemma loop_ends_only_on_request_witness :
  control
    {| vars := handleevent steady_clocks 1700000000000004300 bash_ls_event
                 (fresh_pipeline steady_clocks);
       control := LoopTest |} <> Exited.
Proof.
  apply (loop_ends_only_on_request steady_clocks
           [Go; Deliver bash_ls_event; Go; ClockIs 1700000000000004300;
            Go; Go; Go; PollReturns]).
  - reflexivity.
  - vm_compute. reflexivity.
Defined.

(** X9.  Once [running] is cleared and no record is inside the callback
    past its test, nothing is ever printed or calibrated again: every
    record delivered later is dropped at the test, whatever it is, and
    once the loop has ended it stays ended. *)
Theorem nothing_after_shutdown (clk : Clocks) (inputs : list Input)
    (s s' : Process) :
  running (vars s) = false ->
  idle (control s) = true ->
  run clk inputs s = Some s' ->
  vars s' = vars s
  /\ idle (control s') = true
  /\ (control s = Exited -> control s' = Exited).
Proof.
  revert s. induction inputs as [|i rest IH]; intros s Hr Hk H; cbn in H.
  - inversion H; subst s'. auto.
  - destruct (step clk i s) as [s1|] eqn:E; [|discriminate].
    assert (H1 : vars s1 = vars s /\ idle (control s1) = true
                 /\ (control s = Exited -> control s1 = Exited)).
    { destruct s as [p k]. unfold step in E. cbn [vars control] in *.
      destruct i, k; try discriminate;
        inversion E; subst s1; cbn [vars control]; rewrite ?Hr;
        repeat split; auto; try discriminate.
      all: destruct p; cbn in *; subst; reflexivity. }
    destruct H1 as (Hv & Hi & He).
    destruct (IH s1) as (Hv' & Hi' & He'); auto.
    { now rewrite Hv. }
    split; [now rewrite Hv', Hv|]. split; [exact Hi'|auto].
Qed.

Lemma nothing_after_shutdown_witness :
  run steady_clocks [Deliver bash_ls_event; Go; PollReturns; Go; Signal]
    {| vars := handleinterrupt (fresh_pipeline steady_clocks);
       control := Polling |}
  = Some {| vars := handleinterrupt (fresh_pipeline steady_clocks);
            control := Exited |}
  /\ vars {| vars := handleinterrupt (fresh_pipeline steady_clocks);
             control := Exited |}
     = handleinterrupt (fresh_pipeline steady_clocks).
Proof.
  split; [vm_compute; reflexivity|].
  apply (nothing_after_shutdown steady_clocks
           [Deliver bash_ls_event; Go; PollReturns; Go; Signal]
           {| vars := handleinterrupt (fresh_pipeline steady_clocks);
              control := Polling |}).
  - reflexivity.
  - reflexivity.
  - vm_compute. reflexivity.
Defined.

(** ** Signals during the callback *)

Lemma with_running_id (p : Pipeline) : with_running (running p) p = p.
Proof. destruct p; reflexivity. Qed.

(** Past the test of [running], a statement of the callback does the same
    whatever the flag is, and leaves the flag alone. *)
Lemma step_past_test (clk : Clocks) (i : Input) (p : Pipeline) (k : Control)
    (b : bool) (s1 : Process) (n : nat) :
  is_signal i = false ->
  callback_left k = S n ->
  step clk i {| vars := p; control := k |} = Some s1 ->
  step clk i {| vars := with_running b p; control := k |}
  = Some {| vars := with_running b (vars s1); control := control s1 |}
  /\ callback_left (control s1) = n.
Proof.
  intros Hi Hk H. unfold step in *. cbn [vars control] in *.
  destruct i, k; try discriminate; cbn [callback_left] in Hk;
    cbn [with_running calibrator stdout running].
  - inversion H; subst s1. cbn. split; [reflexivity|lia].
  - inversion H; subst s1. cbn. split; [reflexivity|lia].
  - destruct (calibratetime clk (calibrator p) (rawtime event) wallclocktime)
      as [t c].
    inversion H; subst s1. cbn. split; [reflexivity|lia].
  - destruct (printevent event currenttime (stdout p));
      inversion H; subst s1; cbn; split; try reflexivity; lia.
Qed.

Lemma run_past_test (clk : Clocks) (inputs : list Input) :
  forall (p : Pipeline) (k : Control) (b : bool) (s1 : Process),
    List.length (without_signals inputs) = callback_left k ->
    run clk (without_signals inputs) {| vars := p; control := k |} = Some s1 ->
    run clk inputs {| vars := with_running b p; control := k |}
    = Some {| vars := with_running
                        (b && negb (existsb is_signal inputs)) (vars s1);
              control := control s1 |}.
Proof.
  induction inputs as [|i rest IH]; intros p k b s1 Hl H.
  - cbn in *. inversion H; subst s1. cbn. now rewrite andb_true_r.
  - destruct (is_signal i) eqn:Hi.
    + destruct i; try discriminate.
      unfold without_signals in *. cbn [filter is_signal negb] in Hl, H.
      cbn [run step vars control existsb is_signal orb negb].
      rewrite andb_false_r.
      change (handleinterrupt (with_running b p)) with (with_running false p).
      now rewrite (IH p k false s1 Hl H).
    + unfold without_signals in Hl, H. cbn [filter] in Hl, H.
      rewrite Hi in Hl, H. cbn [negb List.length] in Hl, H.
      cbn [run] in H.
      destruct (step clk i {| vars := p; control := k |}) as [s2|] eqn:E;
        [|discriminate].
      destruct (step_past_test clk i p k b s2 _ Hi (eq_sym Hl) E)
        as [Hstep Hleft].
      cbn [run existsb]. rewrite Hstep, Hi. cbn [orb].
      destruct s2 as [p2 k2]. cbn [vars control] in *.
      apply IH; [now rewrite Hleft|exact H].
Qed.

(** X10.  Cancellation is cooperative.  Once the callback has passed its
    test of [running], signals delivered between any of its remaining
    statements, in any number, change nothing of what it does: the record
    is calibrated and printed exactly as by an undisturbed [handleevent],
    and the only trace of the signals is that [running] is cleared when
    the callback returns. *)
Theorem callback_completes_despite_signals (clk : Clocks) (p : Pipeline)
    (wallclocktime : Z) (data : Event) (inputs : list Input) :
  running p = true ->
  without_signals inputs = [ClockIs wallclocktime; Go; Go; Go] ->
  run clk (Go :: inputs) {| vars := p; control := AtRunningTest data |}
  = Some {| vars := with_running (negb (existsb is_signal inputs))
                      (handleevent clk wallclocktime data p);
            control := Polling |}.
Proof.
  intros Hr Hw.
  pose proof (run_callback clk wallclocktime data p Hr) as Hc.
  cbn [run step vars control] in Hc |- *. rewrite Hr in Hc |- *.
  rewrite <- (with_running_id p) at 1. rewrite Hr.
  rewrite (run_past_test clk inputs p (AtClockRead data) true
             {| vars := handleevent clk wallclocktime data p;
                control := Polling |}).
  - reflexivity.
  - now rewrite Hw.
  - rewrite Hw. exact Hc.
Qed.

Lemma callback_completes_despite_signals_witness :
  run steady_clocks
    [Go; Signal; ClockIs 1700000000000004300; Go; Signal; Signal; Go; Go]
    {| vars := fresh_pipeline steady_clocks;
       control := AtRunningTest bash_ls_event |}
  = Some {| vars := handleinterrupt
                      (handleevent steady_clocks 1700000000000004300
                         bash_ls_event (fresh_pipeline steady_clocks));
            control := Polling |}.
Proof.
  exact (callback_completes_despite_signals steady_clocks
           (fresh_pipeline steady_clocks) 1700000000000004300 bash_ls_event
           [Signal; ClockIs 1700000000000004300; Go; Signal; Signal; Go; Go]
           eq_refl eq_refl).
Defined.

(** ** What the probes put into an event *)

Lemma skipn_S_tl (n : nat) (l : list byte) : skipn (S n) l = skipn n (tl l).
Proof. destruct l; cbn [tl]; [now rewrite !skipn_nil|reflexivity]. Qed.

(** The terminator the probes store right after the bytes they copied
    hides whatever the slot held before. *)
Lemma char_array_get_terminated (bytes : list byte) :
  forall dst : list byte,
    Py.char_array_get (store (copy_over dst bytes) (List.length bytes) Py.NUL)
    = Py.char_array_get bytes.
Proof.
  unfold copy_over. induction bytes as [|b bytes IH]; intro dst.
  - cbn. destruct dst; reflexivity.
  - cbn [List.length app store Py.char_array_get].
    rewrite skipn_S_tl, IH. reflexivity.
Qed.

Lemma char_array_get_length (raw : list byte) :
  (List.length (Py.char_array_get raw) <= List.length raw)%nat.
Proof.
  induction raw as [|c raw IH]; cbn; [lia|].
  destruct (Byte.eqb c Py.NUL); cbn; lia.
Qed.

(** The payload line of an event built the way both probes build it. *)
Lemma payload_repr_terminated (e : Event) (bytes dst : list byte) :
  buf e = store (copy_over dst bytes) (List.length bytes) Py.NUL ->
  len e = Z.of_nat (List.length bytes) ->
  payload_repr e = Py.repr_bytes (Py.char_array_get bytes).
Proof.
  intros Hb Hl. unfold payload_repr, Py.slice_to.
  rewrite Hb, Hl, char_array_get_terminated, Nat2Z.id.
  rewrite firstn_all2 by apply char_array_get_length. reflexivity.
Qed.

(** X11.  [kprobe__tty_write], for a byte count in the range of [size_t]:
    the event it submits has the length [min(count, 4095)], which is never
    zero: an empty write is not logged. *)
Theorem tty_write_length (ITER_IOVEC ITER_UBUF WRITE : Z)
    (a : tty_write_args) (e : Event) :
  kprobe__tty_write ITER_IOVEC ITER_UBUF WRITE a = Some e ->
  0 <= tw_iov_len a < 2 ^ 64 ->
  0 <= tw_count a < 2 ^ 64 ->
  let count := if tw_iter_type a =? ITER_IOVEC
               then tw_iov_len a else tw_count a in
  len e = Z.min count 4095 /\ 1 <= len e <= 4095.
Proof.
  unfold kprobe__tty_write. intros H Hv Hc.
  destruct (negb (tw_iter_type a =? ITER_IOVEC)
            && negb (tw_iter_type a =? ITER_UBUF))%bool eqn:Et;
    [discriminate|].
  destruct (negb (tw_data_source a =? WRITE)); [discriminate|].
  assert (Hpair : (if tw_iter_type a =? ITER_IOVEC
                   then (tw_iov_base a, tw_iov_len a)
                   else if tw_iter_type a =? ITER_UBUF
                        then (tw_ubuf a, tw_count a) else (0, 0))
                  = (if tw_iter_type a =? ITER_IOVEC
                     then tw_iov_base a else tw_ubuf a,
                     if tw_iter_type a =? ITER_IOVEC
                     then tw_iov_len a else tw_count a)).
  { destruct (tw_iter_type a =? ITER_IOVEC); [reflexivity|].
    destruct (tw_iter_type a =? ITER_UBUF); [reflexivity|discriminate]. }
  rewrite Hpair in H. cbv zeta.
  set (user_buf := if tw_iter_type a =? ITER_IOVEC
                   then tw_iov_base a else tw_ubuf a) in *.
  set (count := if tw_iter_type a =? ITER_IOVEC
                then tw_iov_len a else tw_count a) in *.
  assert (Hcount : 0 <= count < 2 ^ 64).
  { unfold count. destruct (tw_iter_type a =? ITER_IOVEC); assumption. }
  clearbody user_buf count.
  destruct ((user_buf =? 0) || (count =? 0))%bool eqn:Ez; [discriminate|].
  apply orb_false_iff in Ez as [_ Ez]. apply Z.eqb_neq in Ez.
  destruct (tw_slot a) as [data|]; [|discriminate].
  destruct (probe_size_bounds count) as (Hb & Hu & Hl).
  destruct (probe_read _ _ _); [|discriminate].
  inversion H; subst e; clear H. cbn [len].
  change (PAGE_SIZE - 1) with 4095 in *. rewrite Hu.
  unfold to_int, to_ulong in *.
  rewrite (Z.mod_small count) in * by lia.
  destruct (Z.ltb_spec count 4095).
  - rewrite (Z.mod_small (count + 2 ^ 31)) by lia. lia.
  - change ((4095 + 2 ^ 31) mod 2 ^ 32 - 2 ^ 31) with 4095. lia.
Qed.

Lemma tty_write_length_witness :
  exists e : Event,
    kprobe__tty_write 0 5 1 ls_write = Some e /\ len e = 3.
Proof.
  eexists. split; [vm_compute; reflexivity|].
  refine (proj1 (tty_write_length 0 5 1 ls_write _ _ _ _)).
  - vm_compute. reflexivity.
  - cbn. lia.
  - cbn. lia.
Defined.

(** X12.  [kprobe__n_tty_receive_buf_common], for a count in the range of
    [int]: the event it submits has the length [min(count, 4095)] when the
    count is not negative, so a count of zero gives an event with an empty
    payload; a negative count, compared as an unsigned value, gives a
    length of 4095. *)
Theorem receive_buf_length (a : receive_buf_args) (e : Event) :
  kprobe__n_tty_receive_buf_common a = Some e ->
  - 2 ^ 31 <= rb_count a < 2 ^ 31 ->
  len e = if rb_count a <? 0 then 4095 else Z.min (rb_count a) 4095.
Proof.
  unfold kprobe__n_tty_receive_buf_common. intros H Hc.
  destruct (rb_cp a =? 0); [discriminate|].
  destruct (rb_slot a) as [data|]; [|discriminate].
  destruct (probe_size_bounds (rb_count a)) as (Hb & Hu & Hl).
  destruct (probe_read _ _ _); [|discriminate].
  inversion H; subst e; clear H. cbn [len].
  change (PAGE_SIZE - 1) with 4095 in *. rewrite Hu.
  unfold to_int, to_ulong in *.
  change (2 ^ 31) with 2147483648 in *.
  change (2 ^ 32) with 4294967296 in *.
  change (2 ^ 64) with 18446744073709551616 in *.
  destruct (Z.ltb_spec (rb_count a) 0) as [Hneg|Hpos].
  - assert (Hm : rb_count a mod 18446744073709551616
                 = rb_count a + 18446744073709551616).
    { symmetry. apply (Z.mod_unique _ _ (-1)); lia. }
    rewrite Hm in *.
    destruct (Z.ltb_spec (rb_count a + 18446744073709551616) 4095);
      [lia|reflexivity].
  - rewrite (Z.mod_small (rb_count a)) in * by lia.
    destruct (Z.ltb_spec (rb_count a) 4095).
    + rewrite (Z.mod_small (rb_count a + 2147483648)) by lia. lia.
    + change ((4095 + 2147483648) mod 4294967296 - 2147483648)
        with 4095. lia.
Qed.

Lemma receive_buf_length_witness :
  exists e : Event,
    kprobe__n_tty_receive_buf_common
      {| rb_ktime := 5000; rb_cp := 4096; rb_count := 0;
         rb_slot := Some stale_slot; rb_kernel := ls_memory;
         rb_ino := None; rb_task := bash_task |} = Some e
    /\ len e = 0 /\ inode e = 0 /\ payload_repr e = "b''"%string.
Proof.
  eexists. split; [vm_compute; reflexivity|].
  split; [|split; reflexivity].
  refine (receive_buf_length
            {| rb_ktime := 5000; rb_cp := 4096; rb_count := 0;
               rb_slot := Some stale_slot; rb_kernel := ls_memory;
               rb_ino := None; rb_task := bash_task |} _ _ _).
  - vm_compute. reflexivity.
  - cbn. lia.
Defined.

(** X13.  From the write probe to the log.  For an event submitted by
    [kprobe__tty_write], the bytes were read from the user buffer at the
    address the probe took from the iterator, as many as the event's
    length; handled while [running], the event prints a header with
    direction INPUT and a payload line rendering those bytes up to their
    first NUL.  Nothing of what the reserved slot held before shows. *)
Theorem tty_write_to_log (ITER_IOVEC ITER_UBUF WRITE : Z)
    (a : tty_write_args) (e : Event) :
  kprobe__tty_write ITER_IOVEC ITER_UBUF WRITE a = Some e ->
  exists bytes : list byte,
    probe_read (tw_user a)
      (if tw_iter_type a =? ITER_IOVEC then tw_iov_base a else tw_ubuf a)
      (Z.to_nat (len e)) = Some bytes
    /\ payload_repr e = Py.repr_bytes (Py.char_array_get bytes)
    /\ forall (clk : Clocks) (wallclocktime : Z) (p : Pipeline),
         running p = true ->
         stdout (handleevent clk wallclocktime e p)
         = (stdout p
            ++ header "INPUT" e (rawtime e + clockoffset (calibrator p))
            ++ String Py.newline EmptyString
            ++ Py.repr_bytes (Py.char_array_get bytes)
            ++ String Py.newline EmptyString)%string.
Proof.
  unfold kprobe__tty_write. intro H.
  destruct (negb (tw_iter_type a =? ITER_IOVEC)
            && negb (tw_iter_type a =? ITER_UBUF))%bool eqn:Et;
    [discriminate|].
  destruct (negb (tw_data_source a =? WRITE)); [discriminate|].
  assert (Hpair : (if tw_iter_type a =? ITER_IOVEC
                   then (tw_iov_base a, tw_iov_len a)
                   else if tw_iter_type a =? ITER_UBUF
                        then (tw_ubuf a, tw_count a) else (0, 0))
                  = (if tw_iter_type a =? ITER_IOVEC
                     then tw_iov_base a else tw_ubuf a,
                     if tw_iter_type a =? ITER_IOVEC
                     then tw_iov_len a else tw_count a)).
  { destruct (tw_iter_type a =? ITER_IOVEC); [reflexivity|].
    destruct (tw_iter_type a =? ITER_UBUF); [reflexivity|discriminate]. }
  rewrite Hpair in H.
  set (user_buf := if tw_iter_type a =? ITER_IOVEC
                   then tw_iov_base a else tw_ubuf a) in *.
  set (count := if tw_iter_type a =? ITER_IOVEC
                then tw_iov_len a else tw_count a) in *.
  destruct ((user_buf =? 0) || (count =? 0))%bool; [discriminate|].
  destruct (tw_slot a) as [data|]; [|discriminate].
  destruct (probe_size_bounds count) as (Hb & Hu & Hl).
  set (size := to_int _) in *.
  destruct (probe_read (tw_user a) user_buf (Z.to_nat (to_u32 size)))
    as [bytes|] eqn:Er; [|discriminate].
  pose proof (probe_read_length _ _ _ _ Er) as Hlen. rewrite Hu in Hlen.
  assert (Hlt : (to_ulong size <? PAGE_SIZE) = true).
  { apply Z.ltb_lt. rewrite Hl. unfold PAGE_SIZE. lia. }
  rewrite Hlt in H. inversion H as [He]; clear H. subst e.
  match goal with |- context [payload_repr ?r = _] =>
    assert (Hpay : payload_repr r = Py.repr_bytes (Py.char_array_get bytes))
  end.
  { apply (payload_repr_terminated _ bytes (buf data)); cbn [buf len].
    - now rewrite Hlen.
    - rewrite Hu, Hlen. lia. }
  exists bytes. split; [|split].
  - cbn [len]. exact Er.
  - exact Hpay.
  - intros clk w p Hr.
    rewrite (handleevent_stdout clk w _ p "INPUT" Hr) by reflexivity.
    now rewrite Hpay.
Qed.

(** X14.  From the receive probe to the log.  For an event submitted by
    [kprobe__n_tty_receive_buf_common], the bytes were read from the
    kernel buffer [cp], as many as the event's length; handled while
    [running], the event prints a header with direction OUTPUT and a
    payload line rendering those bytes up to their first NUL.  Nothing of
    what the reserved slot held before shows. *)
Theorem receive_buf_to_log (a : receive_buf_args) (e : Event) :
  kprobe__n_tty_receive_buf_common a = Some e ->
  exists bytes : list byte,
    probe_read (rb_kernel a) (rb_cp a) (Z.to_nat (len e)) = Some bytes
    /\ payload_repr e = Py.repr_bytes (Py.char_array_get bytes)
    /\ forall (clk : Clocks) (wallclocktime : Z) (p : Pipeline),
         running p = true ->
         stdout (handleevent clk wallclocktime e p)
         = (stdout p
            ++ header "OUTPUT" e (rawtime e + clockoffset (calibrator p))
            ++ String Py.newline EmptyString
            ++ Py.repr_bytes (Py.char_array_get bytes)
            ++ String Py.newline EmptyString)%string.
Proof.
  unfold kprobe__n_tty_receive_buf_common. intro H.
  destruct (rb_cp a =? 0); [discriminate|].
  destruct (rb_slot a) as [data|]; [|discriminate].
  destruct (probe_size_bounds (rb_count a)) as (Hb & Hu & Hl).
  set (size := to_int _) in *.
  destruct (probe_read (rb_kernel a) (rb_cp a) (Z.to_nat (to_u32 size)))
    as [bytes|] eqn:Er; [|discriminate].
  pose proof (probe_read_length _ _ _ _ Er) as Hlen. rewrite Hu in Hlen.
  inversion H as [He]; clear H. subst e.
  match goal with |- context [payload_repr ?r = _] =>
    assert (Hpay : payload_repr r = Py.repr_bytes (Py.char_array_get bytes))
  end.
  { apply (payload_repr_terminated _ bytes (buf data)); cbn [buf len].
    - now rewrite Hlen.
    - rewrite Hu, Hlen. lia. }
  exists bytes. split; [|split].
  - cbn [len]. exact Er.
  - exact Hpay.
  - intros clk w p Hr.
    rewrite (handleevent_stdout clk w _ p "OUTPUT" Hr) by reflexivity.
    now rewrite Hpay.
Qed.

Lemma tty_write_to_log_witness :
  exists e : Event,
    kprobe__tty_write 0 5 1 ls_write = Some e
    /\ Py.lines
         (stdout (handleevent steady_clocks 1700000000000004300 e
                    (fresh_pipeline steady_clocks)))
       = ["<INPUT pid=4242 tid=7 time=1700000000000004255 rawtime=5000 cgid=11 inode=34 pidtgid=18219251269639 nsid=4026531836 comm=b'bash' len=3>";
          "b'ls\n'"]%string.
Proof.
  eexists. split; [vm_compute; reflexivity|].
  match goal with
  | |- Py.lines (stdout (handleevent _ _ ?e _)) = _ =>
      destruct (tty_write_to_log 0 5 1 ls_write e) as (bytes & Hr & _ & Hout)
  end.
  - vm_compute. reflexivity.
  - rewrite Hout by reflexivity.
    vm_compute in Hr. inversion Hr; subst bytes.
    vm_compute. reflexivity.
Defined.

Lemma receive_buf_to_log_witness :
  exists e : Event,
    kprobe__n_tty_receive_buf_common ls_receive = Some e
    /\ Py.lines
         (stdout (handleevent steady_clocks 1700000000000004300 e
                    (fresh_pipeline steady_clocks)))
       = ["<OUTPUT pid=4242 tid=7 time=1700000000000004255 rawtime=5000 cgid=11 inode=34 pidtgid=18219251269639 nsid=4026531836 comm=b'bash' len=3>";
          "b'ls\n'"]%string.
Proof.
  eexists. split; [vm_compute; reflexivity|].
  match goal with
  | |- Py.lines (stdout (handleevent _ _ ?e _)) = _ =>
      destruct (receive_buf_to_log ls_receive e) as (bytes & Hr & _ & Hout)
  end.
  - vm_compute. reflexivity.
  - rewrite Hout by reflexivity.
    vm_compute in Hr. inversion Hr; subst bytes.
    vm_compute. reflexivity.
Defined.

(** ** The payload line loses nothing of what it renders *)

Lemma unrepr_repr_byte (q : ascii) (c : byte) (rest : string) :
  q = Py.squote \/ q = Py.dquote ->
  unrepr_body q (Py.repr_byte q c ++ rest)
  = option_map (cons c) (unrepr_body q rest).
Proof.
  intros [-> | ->]; destruct c; reflexivity.
Qed.

Lemma unrepr_repr_body (q : ascii) (b : list byte) :
  q = Py.squote \/ q = Py.dquote ->
  unrepr_body q (Py.repr_body q b ++ String q EmptyString) = Some b.
Proof.
  intro Hq. induction b as [|c b IH].
  - destruct Hq as [-> | ->]; reflexivity.
  - cbn [Py.repr_body]. rewrite string_app_assoc.
    rewrite unrepr_repr_byte by exact Hq. now rewrite IH.
Qed.

Lemma unrepr_repr_bytes (b : list byte) :
  unrepr_bytes (Py.repr_bytes b) = Some b.
Proof.
  unfold Py.repr_bytes, unrepr_bytes.
  apply unrepr_repr_body.
  unfold Py.repr_quote. destruct (_ && _)%bool; auto.
Qed.

(** X15.  The payload line is an unambiguous rendering: two records whose
    payload lines are the same text render the same bytes.  The escaping
    and the choice of quote never make two different byte strings look
    alike in the log. *)
Theorem payload_repr_injective (e1 e2 : Event) :
  payload_repr e1 = payload_repr e2 ->
  Py.slice_to (Py.char_array_get (buf e1)) (len e1)
  = Py.slice_to (Py.char_array_get (buf e2)) (len e2).
Proof.
  unfold payload_repr. intro H.
  apply (f_equal unrepr_bytes) in H.
  rewrite !unrepr_repr_bytes in H. now inversion H.
Qed.

Lemma payload_repr_injective_witness :
  buf bash_ls_event
  <> buf {| rawtime := 0; cgid := 0; inode := 0; pidtgid := 0; nsid := 0;
            comm := []; buf := [x6c; x73; x0a; x00; xff]; len := 7;
            etype := 1 |}
  /\ Py.slice_to (Py.char_array_get (buf bash_ls_event)) (len bash_ls_event)
     = Py.slice_to (Py.char_array_get [x6c; x73; x0a; x00; xff]) 7.
Proof.
  split; [discriminate|].
  apply (payload_repr_injective bash_ls_event
           {| rawtime := 0; cgid := 0; inode := 0; pidtgid := 0; nsid := 0;
              comm := []; buf := [x6c; x73; x0a; x00; xff]; len := 7;
              etype := 1 |}).
  reflexivity.
Defined.

(** ** The log, line by line *)

Lemma index_EVENT_TYPES_no_newline (i : Z) (d : string) :
  Py.index EVENT_TYPES i = Some d -> Py.no_newline d = true.
Proof.
  unfold Py.index. cbn [EVENT_TYPES List.length Z.of_nat].
  destruct (0 <=? i).
  - destruct (Z.to_nat i) as [|[|[|n]]]; cbn; intro H; inversion H;
      reflexivity.
  - destruct (_ <=? i); [|discriminate].
    destruct (Z.to_nat _) as [|[|[|n]]]; cbn; intro H; inversion H;
      reflexivity.
Qed.

Lemma lines_record_text (event : Event) (t : Z) (rest : string) :
  Py.lines (record_text event t ++ rest)
  = record_lines event t ++ Py.lines rest.
Proof.
  unfold record_text, record_lines, printevent, Py.print.
  destruct (Py.index EVENT_TYPES (etype event)) as [d|] eqn:Hd;
    [|reflexivity].
  change (EmptyString ++ ?x)%string with x.
  rewrite !string_app_assoc. unfold Py.lines.
  change (String Py.newline EmptyString ++ ?x)%string
    with (String Py.newline x).
  rewrite lines_from_line
    by (apply header_no_newline;
        exact (index_EVENT_TYPES_no_newline _ _ Hd)).
  change (String Py.newline EmptyString ++ ?x)%string
    with (String Py.newline x).
  rewrite lines_from_line by apply repr_bytes_no_newline.
  reflexivity.
Qed.

Lemma lines_records_text (records : list Event) :
  forall times : list Z,
    Py.lines (records_text records times) = records_lines records times.
Proof.
  induction records as [|e records IH]; intros [|t times]; try reflexivity.
  cbn [records_text records_lines].
  now rewrite lines_record_text, IH.
Qed.

(** X16.  The log of a batch handled from an empty standard output while
    [running], read line by line: for each record in the order of
    delivery, its header line and then its payload line, records with an
    unknown direction contributing none.  A record never spills into, or
    merges with, the lines of another. *)
Theorem log_lines_per_record (clk : Clocks) (batch : list (Z * Event))
    (p : Pipeline) :
  running p = true ->
  stdout p = EmptyString ->
  Py.lines (stdout (handle_all clk batch p))
  = records_lines (map snd batch)
      (fst (calibrate_all clk (calibrator p)
              (map (fun we => (rawtime (snd we), fst we)) batch))).
Proof.
  intros Hr Ho.
  rewrite (handle_all_running clk batch p Hr). cbn [stdout].
  rewrite Ho. change (EmptyString ++ ?x)%string with x.
  apply lines_records_text.
Qed.

Lemma log_lines_per_record_witness :
  Py.lines
    (stdout (handle_all steady_clocks
               [(1700000000000004300, bash_ls_event);
                (1700000000000004350, stale_slot);
                (1700000000000004400, nul_event)]
               (fresh_pipeline steady_clocks)))
  = ["<OUTPUT pid=4242 tid=7 time=1700000000000004255 rawtime=5000 cgid=11 inode=34 pidtgid=18219251269639 nsid=4026531836 comm=b'bash' len=3>";
     "b'ls\n'";
     "<INPUT pid=4242 tid=7 time=1700000000000004255 rawtime=5000 cgid=11 inode=34 pidtgid=18219251269639 nsid=4026531836 comm=b'cat' len=3>";
     "b'a'"]%string.
Proof.
  rewrite (log_lines_per_record steady_clocks
             [(1700000000000004300, bash_ls_event);
              (1700000000000004350, stale_slot);
              (1700000000000004400, nul_event)]
             (fresh_pipeline steady_clocks) eq_refl eq_refl).
  vm_compute. reflexivity.
Defined.
